(** * Brush status monitor: [examples/status_monitoring.py]

    A shallow embedding of the training-progress monitor and the properties
    of its poll loop.  The Python values that [json.load] can produce are an
    inductive type, Python floats are IEEE binary64 numbers in the Standard
    Library's [spec_float], exceptions are an error result, and the body of
    the [while True] loop is a computation in a small state-and-exception
    monad whose state is the local variable [last_iteration] together with
    the lines printed so far. *)

From Stdlib Require Import ZArith List String Ascii Bool Lia.
From Stdlib Require Import Floats.SpecFloat.
Import ListNotations.

Local Open Scope string_scope.
Local Open Scope Z_scope.

Set Warnings "-register-all".

(** ** Python values *)

(** What [json.load] returns: [None], [bool], [int], [float], [str], [list]
    and [dict] with string keys.  A float is a binary64 number in canonical
    form, as the parser and the arithmetic produce it.  A dict is kept as
    the association list of its items in insertion order; [json.load]
    leaves each key at most once. *)
Inductive json : Type :=
| JNull
| JBool (b : bool)
| JInt (n : Z)
| JFloat (f : spec_float)
| JStr (s : string)
| JList (l : list json)
| JDict (items : list (string * json)).

(** The exception classes that can reach the monitor's handlers. *)
Inductive exn : Type :=
| JSONDecodeError
| FileNotFoundError
| KeyError (key : string)
| TypeError
| ValueError
| OverflowError
| AttributeError
| KeyboardInterrupt
| OSError
| UnicodeDecodeError
| UnicodeEncodeError.

Inductive res (A : Type) : Type :=
| Ok (a : A)
| Raise (e : exn).
Arguments Ok {A} a.
Arguments Raise {A} e.

Definition res_bind {A B} (r : res A) (k : A -> res B) : res B :=
  match r with
  | Ok a => k a
  | Raise e => Raise e
  end.

Notation "'let*' x ':=' r 'in' k" := (res_bind r (fun x => k))
  (at level 10, x name, r at level 100, k at level 200).

(** ** Floats: IEEE binary64 *)

Module Float.

Definition prec : Z := 53.
Definition emax : Z := 1024.

(** [float(n)] for a Python int, before the overflow check. *)
Definition of_Z (n : Z) : spec_float := binary_normalize prec emax n 0 false.

Definition div : spec_float -> spec_float -> spec_float := SFdiv prec emax.
Definition mul : spec_float -> spec_float -> spec_float := SFmul prec emax.
Definition eqb : spec_float -> spec_float -> bool := SFeqb.

Definition is_nan (f : spec_float) : bool :=
  match f with S754_nan => true | _ => false end.

(** The float written as the decimal literal [n / 10^d], the way Python's
    parser reads it: the binary64 number nearest to the quotient. *)
Definition of_decimal (n : Z) (d : nat) : spec_float :=
  div (of_Z n) (of_Z (10 ^ Z.of_nat d)).

(** [x == n] between a float and an int compares the exact values. *)
Definition eqb_Z (x : spec_float) (n : Z) : bool :=
  match x with
  | S754_zero _ => n =? 0
  | S754_finite s m e =>
      let sm := if s then Z.neg m else Z.pos m in
      if 0 <=? e then Z.shiftl sm e =? n else sm =? Z.shiftl n (- e)
  | _ => false
  end.

(** [n <= x] between an int and a float, on exact values. *)
Definition leb_Z (n : Z) (x : spec_float) : bool :=
  match x with
  | S754_zero _ => n <=? 0
  | S754_finite s m e =>
      let sm := if s then Z.neg m else Z.pos m in
      if 0 <=? e then n <=? Z.shiftl sm e else Z.shiftl n (- e) <=? sm
  | S754_infinity s => negb s
  | S754_nan => false
  end.

(** [x < n] between a float and an int, on exact values. *)
Definition ltb_Z (x : spec_float) (n : Z) : bool :=
  match x with
  | S754_zero _ => 0 <? n
  | S754_finite s m e =>
      let sm := if s then Z.neg m else Z.pos m in
      if 0 <=? e then Z.shiftl sm e <? n else sm <? Z.shiftl n (- e)
  | S754_infinity s => s
  | S754_nan => false
  end.

End Float.

(** ** Decimal text *)

Definition digit_char (d : Z) : ascii := ascii_of_nat (48 + Z.to_nat d).

(** The decimal digits of [n >= 0], most significant first, with [fuel]
    bounding the number of digits. *)
Fixpoint digits_fuel (fuel : nat) (n : Z) (acc : string) : string :=
  match fuel with
  | O => acc
  | S fuel' =>
      let acc' := String (digit_char (n mod 10)) acc in
      if n <? 10 then acc' else digits_fuel fuel' (n / 10) acc'
  end.

Definition nat_digits (n : Z) : string :=
  digits_fuel (S (Z.to_nat (Z.log2 n))) n "".

(** [str(n)] for a Python int. *)
Definition str_int (n : Z) : string :=
  if n <? 0 then "-" ++ nat_digits (- n) else nat_digits n.

Fixpoint zeros (k : nat) : string :=
  match k with
  | O => ""
  | S k' => String "0" (zeros k')
  end.

(** Splits a digit string so that exactly [d] digits follow the point,
    padding with leading zeros when the string is too short. *)
Definition insert_point (d : nat) (ds : string) : string :=
  let len := String.length ds in
  let ds' := if Nat.leb len d then zeros (S d - len) ++ ds else ds in
  let len' := String.length ds' in
  let int_part := substring 0 (len' - d) ds' in
  match d with
  | O => int_part
  | _ => int_part ++ "." ++ substring (len' - d) d ds'
  end.

(** The integer nearest to [num / den], ties to even ([den > 0], [num >= 0]). *)
Definition round_half_even (num den : Z) : Z :=
  let q := num / den in
  let r := num mod den in
  match 2 * r ?= den with
  | Lt => q
  | Gt => q + 1
  | Eq => if Z.even q then q else q + 1
  end.

(** [format(x, '.df')] for a float: the exact binary value rounded to [d]
    decimals, half to even. *)
Definition format_f (d : nat) (x : spec_float) : string :=
  match x with
  | S754_nan => "nan"
  | S754_infinity s => if s then "-inf" else "inf"
  | S754_zero s => (if s then "-" else "") ++ insert_point d (zeros (S d))
  | S754_finite s m e =>
      let scaled := Z.pos m * 10 ^ Z.of_nat d in
      let n := if 0 <=? e then Z.shiftl scaled e
               else round_half_even scaled (Z.shiftl 1 (- e)) in
      (if s then "-" else "") ++ insert_point d (nat_digits n)
  end.

(** Groups a digit string in threes from the right with commas. *)
Fixpoint group3 (ds : list ascii) (lead : nat) : string :=
  match ds with
  | [] => ""
  | c :: rest =>
      match lead, rest with
      | S O, _ :: _ => String c (String "," (group3 rest 3))
      | S lead', _ => String c (group3 rest lead')
      | O, _ => String c (group3 rest 2)
      end
  end.

(** [format(n, ',')] for a Python int. *)
Definition format_comma_int (n : Z) : string :=
  let ds := list_ascii_of_string (nat_digits (Z.abs n)) in
  let lead := match (List.length ds mod 3)%nat with O => 3%nat | k => k end in
  (if n <? 0 then "-" else "") ++ group3 ds lead.

(** ** Operations of the Python runtime on parsed values *)

Fixpoint lookup (k : string) (items : list (string * json)) : option json :=
  match items with
  | [] => None
  | (k', v) :: rest => if String.eqb k k' then Some v else lookup k rest
  end.

(** [status[k]]: only a dict can be indexed by a string. *)
Definition subscript (status : json) (k : string) : res json :=
  match status with
  | JDict items =>
      match lookup k items with
      | Some v => Ok v
      | None => Raise (KeyError k)
      end
  | _ => Raise TypeError
  end.

(** [status.get(k)]: [None] for a key that is not there. *)
Definition get (status : json) (k : string) : res json :=
  match status with
  | JDict items =>
      match lookup k items with
      | Some v => Ok v
      | None => Ok JNull
      end
  | _ => Raise AttributeError
  end.

(** [x is not None]. *)
Definition is_not_none (v : json) : bool :=
  match v with JNull => false | _ => true end.

(** Truth value of [v] in an [if]. *)
Definition truthy (v : json) : bool :=
  match v with
  | JNull => false
  | JBool b => b
  | JInt n => negb (n =? 0)
  | JFloat (S754_zero _) => false
  | JFloat _ => true
  | JStr s => negb (String.eqb s "")
  | JList l => match l with [] => false | _ => true end
  | JDict items => match items with [] => false | _ => true end
  end.

Definition is_nan_value (v : json) : bool :=
  match v with JFloat f => Float.is_nan f | _ => false end.

(** [a == b].  Numbers compare by value across [bool], [int] and [float];
    a NaN differs from everything, itself included.  The items of two lists
    or dicts are compared with the identity shortcut [x is y or x == y], and
    [json] has a single NaN object, so two NaN items count as equal. *)
Fixpoint py_eq (a b : json) {struct a} : bool :=
  match a, b with
  | JNull, JNull => true
  | JBool x, JBool y => Bool.eqb x y
  | JBool x, JInt n | JInt n, JBool x => Z.b2z x =? n
  | JBool x, JFloat f | JFloat f, JBool x => Float.eqb_Z f (Z.b2z x)
  | JInt n, JInt m => n =? m
  | JInt n, JFloat f | JFloat f, JInt n => Float.eqb_Z f n
  | JFloat f, JFloat g => Float.eqb f g
  | JStr s, JStr t => String.eqb s t
  | JList xs, JList ys =>
      (fix all2 (xs ys : list json) {struct xs} : bool :=
         match xs, ys with
         | [], [] => true
         | x :: xs', y :: ys' =>
             ((is_nan_value x && is_nan_value y) || py_eq x y) && all2 xs' ys'
         | _, _ => false
         end) xs ys
  | JDict xs, JDict ys =>
      (List.length xs =? List.length ys)%nat &&
      (fix all_in (xs : list (string * json)) {struct xs} : bool :=
         match xs with
         | [] => true
         | (k, x) :: xs' =>
             match lookup k ys with
             | Some y =>
                 ((is_nan_value x && is_nan_value y) || py_eq x y) && all_in xs'
             | None => false
             end
         end) xs
  | _, _ => false
  end.

(** [v < n] for an int literal [n]. *)
Definition lt_int (v : json) (n : Z) : res bool :=
  match v with
  | JBool b => Ok (Z.b2z b <? n)
  | JInt z => Ok (z <? n)
  | JFloat f => Ok (Float.ltb_Z f n)
  | _ => Raise TypeError
  end.

(** [float(n)], which overflows beyond the largest finite float. *)
Definition float_of_int (n : Z) : res spec_float :=
  match Float.of_Z n with
  | S754_infinity _ => Raise OverflowError
  | f => Ok f
  end.

(** An int as a dyadic number with exponent zero. *)
Definition exact_int (n : Z) : spec_float :=
  match n with
  | Z0 => S754_zero false
  | Zpos p => S754_finite false p 0
  | Zneg p => S754_finite true p 0
  end.

(** [a / b] for two ints, [b <> 0]: the float nearest to the exact
    quotient. *)
Definition int_true_div (a b : Z) : res spec_float :=
  match Float.div (exact_int a) (exact_int b) with
  | S754_infinity _ => Raise OverflowError
  | f => Ok f
  end.

(** [v / n] for a nonzero int literal [n]. *)
Definition true_div (v : json) (n : Z) : res json :=
  match v with
  | JBool b => let* f := int_true_div (Z.b2z b) n in Ok (JFloat f)
  | JInt z => let* f := int_true_div z n in Ok (JFloat f)
  | JFloat f => Ok (JFloat (Float.div f (Float.of_Z n)))
  | _ => Raise TypeError
  end.

(** [format(v, '.df')]. *)
Definition format_spec_f (d : nat) (v : json) : res string :=
  match v with
  | JBool b => let* f := float_of_int (Z.b2z b) in Ok (format_f d f)
  | JInt z => let* f := float_of_int z in Ok (format_f d f)
  | JFloat f => Ok (format_f d f)
  | JStr _ => Raise ValueError
  | _ => Raise TypeError
  end.

(** The built-ins whose text the monitor only passes through: [str] of a
    float and of a container, and [format(x, ',')] of a float. *)
Record runtime : Type := {
  repr_float : spec_float -> string;
  repr_container : json -> string;
  format_comma_float : spec_float -> string
}.

Definition nl : string := String (ascii_of_nat 10) "".

(** ** The monitor *)

(** [format_duration], lines 24-33. *)
Definition format_duration (seconds : json) : res string :=
  let* under_minute := lt_int seconds 60 in
  if under_minute then
    let* s := format_spec_f 1 seconds in
    Ok (s ++ "s")
  else
    let* under_hour := lt_int seconds 3600 in
    if under_hour then
      let* minutes := true_div seconds 60 in
      let* s := format_spec_f 1 minutes in
      Ok (s ++ "m")
    else
      let* hours := true_div seconds 3600 in
      let* s := format_spec_f 1 hours in
      Ok (s ++ "h").

(** *** State, output and exceptions *)

(** The mutable local [last_iteration] and what has been printed, one entry
    per call of [print]. *)
Record mstate : Type := {
  last_iteration : json;
  stdout : list string
}.

Definition M (A : Type) : Type := mstate -> res A * mstate.

Definition ret {A} (a : A) : M A := fun st => (Ok a, st).

Definition bind {A B} (c : M A) (k : A -> M B) : M B :=
  fun st =>
    match c st with
    | (Ok a, st') => k a st'
    | (Raise e, st') => (Raise e, st')
    end.

Definition lift {A} (r : res A) : M A := fun st => (r, st).

(** [print(line)] on a standard output that takes every line.  The
    monitor on a standard output that may refuse a line is [Stream]
    below. *)
Definition print (line : string) : M unit :=
  fun st => (Ok tt, {| last_iteration := last_iteration st;
                       stdout := stdout st ++ [line] |}).

Definition read_last : M json := fun st => (Ok (last_iteration st), st).

Definition write_last (v : json) : M unit :=
  fun st => (Ok tt, {| last_iteration := v; stdout := stdout st |}).

Notation "x <- c ;; k" := (bind c (fun x => k))
  (at level 61, c at next level, right associativity).
Notation "c ;;; k" := (bind c (fun _ => k))
  (at level 61, right associativity).

(** *** The world of one pass through the loop *)

(** What the file system answers: [Absent] when [status_file.exists()] is
    false; [Unreadable e] when it exists but [open] or [json.load] raises
    [e]; [Loaded v] when [json.load] returns [v]. *)
Inductive artifact : Type :=
| Absent
| Unreadable (e : exn)
| Loaded (v : json).

(** [now] is the text of [datetime.now().strftime('%H:%M:%S')];
    [interrupt] tells whether Ctrl+C arrives during this pass's sleep. *)
Record poll : Type := {
  file : artifact;
  now : string;
  interrupt : bool
}.

(** [time.sleep(secs)].  The length is first turned into nanoseconds in a
    signed 64-bit integer, which refuses a NaN and a length out of range;
    then a negative length is refused; then the sleep starts, and Ctrl+C
    may end it. *)
Definition time_sleep (secs : spec_float) (interrupted : bool) : res unit :=
  match secs with
  | S754_nan => Raise ValueError
  | _ =>
      let ns := Float.mul secs (Float.of_Z (10 ^ 9)) in
      if Float.leb_Z (- 2 ^ 63) ns && Float.ltb_Z ns (2 ^ 63) then
        match secs with
        | S754_finite true _ _ => Raise ValueError
        | _ => if interrupted then Raise KeyboardInterrupt else Ok tt
        end
      else Raise OverflowError
  end.

(** How the [try] block is left when no exception escapes it. *)
Inductive flow : Type :=
| Fallthrough
| Continue
| Break.

Section Monitor.

Variable rt : runtime.

(** [str(v)]. *)
Definition py_str (v : json) : string :=
  match v with
  | JNull => "None"
  | JBool b => if b then "True" else "False"
  | JInt n => str_int n
  | JFloat f => repr_float rt f
  | JStr s => s
  | _ => repr_container rt v
  end.

(** [format(v, ',')]. *)
Definition format_spec_comma (v : json) : res string :=
  match v with
  | JBool b => Ok (format_comma_int (Z.b2z b))
  | JInt n => Ok (format_comma_int n)
  | JFloat f => Ok (format_comma_float rt f)
  | JStr _ => Raise ValueError
  | _ => Raise TypeError
  end.

(** Lines 74-82: the f-string is evaluated left to right. *)
Definition base_line (now : string) (status current_iter progress : json)
    (elapsed remaining : string) (splat_count train_status : json)
    : res string :=
  let* total := subscript status "total_iterations" in
  let* pct := format_spec_f 1 progress in
  let* splats := format_spec_comma splat_count in
  Ok ("[" ++ now ++ "] "
      ++ "Iter " ++ py_str current_iter ++ "/" ++ py_str total ++ " "
      ++ "(" ++ pct ++ "%) | "
      ++ "Elapsed: " ++ elapsed ++ " | "
      ++ "Remaining: " ++ remaining ++ " | "
      ++ "Splats: " ++ splats ++ " | "
      ++ "Status: " ++ py_str train_status).

(** Lines 85-88: what is appended for the evaluation metrics. *)
Definition metrics_segment (status : json) : res string :=
  let* p := get status "last_eval_psnr" in
  if is_not_none p then
    let* psnr := subscript status "last_eval_psnr" in
    let* ssim := subscript status "last_eval_ssim" in
    let* ps := format_spec_f 2 psnr in
    let* ss := format_spec_f 3 ssim in
    Ok (" | PSNR: " ++ ps ++ " | SSIM: " ++ ss)
  else Ok "".

(** Lines 91-93: what is appended for the last export. *)
Definition export_segment (status : json) : res string :=
  let* f := get status "current_export_file" in
  if truthy f then
    let* export_file := subscript status "current_export_file" in
    Ok (" | Last export: " ++ py_str export_file)
  else Ok "".

(** Lines 67-93: the status line of a snapshot, with the [status] field
    that the end-of-training check looks at afterwards. *)
Definition render (now : string) (status current_iter : json)
    : res (string * json) :=
  let* progress := subscript status "progress_percentage" in
  let* elapsed_s := subscript status "elapsed_time_seconds" in
  let* elapsed := format_duration elapsed_s in
  let* remaining_s := subscript status "estimated_remaining_seconds" in
  let* remaining := format_duration remaining_s in
  let* splat_count := subscript status "current_splat_count" in
  let* train_status := subscript status "status" in
  let* line := base_line now status current_iter progress elapsed remaining
                 splat_count train_status in
  let* metrics := metrics_segment status in
  let* export := export_segment status in
  Ok (line ++ metrics ++ export, train_status).

(** Lines 98-105: the check for the end of training. *)
Definition check_completed (status train_status : json) : M flow :=
  if py_eq train_status (JStr "completed") then
    print (nl ++ "✅ Training completed!") ;;;
    f <- lift (get status "current_export_file") ;;
    (if truthy f then
       export_path <- lift (subscript status "export_path") ;;
       export_file <- lift (subscript status "current_export_file") ;;
       print ("Final output: " ++ py_str export_path ++ "/"
              ++ py_str export_file)
     else ret tt) ;;;
    ret Break
  else if py_eq train_status (JStr "error") then
    print (nl ++ "❌ Training failed!") ;;;
    ret Break
  else ret Fallthrough.

(** Lines 53-105: the body of the inner [try].  [last_iteration] is
    assigned before the snapshot's other fields are read. *)
Definition try_body (update_interval : spec_float) (w : poll) : M flow :=
  match file w with
  | Absent =>
      print "Status file not found, waiting for training to start..." ;;;
      lift (time_sleep update_interval (interrupt w)) ;;;
      ret Continue
  | Unreadable e => lift (Raise e)
  | Loaded status =>
      current_iter <- lift (subscript status "current_iteration") ;;
      last <- read_last ;;
      if negb (py_eq current_iter last) then
        write_last current_iter ;;;
        rendered <- lift (render (now w) status current_iter) ;;
        let '(status_line, train_status) := rendered in
        print status_line ;;;
        check_completed status train_status
      else ret Fallthrough
  end.

(** Lines 107-112: the three handlers of the inner [try]; any other
    exception goes on to the caller.  The text of a [KeyError] is the
    [repr] of its key, here always one of the identifiers that the monitor
    subscripts with, in single quotes. *)
Definition handlers (e : exn) : M flow :=
  match e with
  | JSONDecodeError => print "Status file corrupted, retrying..." ;;; ret Fallthrough
  | FileNotFoundError => print "Status file disappeared, waiting..." ;;; ret Fallthrough
  | KeyError k =>
      print ("Missing key in status file: '" ++ k ++ "'") ;;; ret Fallthrough
  | _ => lift (Raise e)
  end.

(** Lines 52-114: one pass through the [while True] loop.  [Ok true] when
    the loop goes round again, [Ok false] after [break]. *)
Definition iteration (update_interval : spec_float) (w : poll) : M bool :=
  fun st =>
    let tried :=
      match try_body update_interval w st with
      | (Raise e, st') => handlers e st'
      | done => done
      end in
    match tried with
    | (Ok Fallthrough, st') =>
        (lift (time_sleep update_interval (interrupt w)) ;;; ret true) st'
    | (Ok Continue, st') => (Ok true, st')
    | (Ok Break, st') => (Ok false, st')
    | (Raise e, st') => (Raise e, st')
    end.

(** How a run over a finite stretch of the world ends: the function has
    returned, an exception has left it, or the loop is still going when
    the stretch is used up. *)
Inductive ending : Type :=
| Returned
| Uncaught (e : exn)
| Polling.

(** Lines 51-114: the loop, over the passes the world allows. *)
Fixpoint while_true (update_interval : spec_float) (world : list poll)
    (st : mstate) : res bool * mstate :=
  match world with
  | [] => (Ok true, st)
  | w :: rest =>
      match iteration update_interval w st with
      | (Ok true, st') => while_true update_interval rest st'
      | stop => stop
      end
  end.

(** Lines 36-117.  [status_file] is the text of [Path(status_file_path)]. *)
Definition monitor_training_progress (status_file : string)
    (update_interval : spec_float) (world : list poll)
    : ending * mstate :=
  let st0 := {| last_iteration := JInt (-1);
                stdout := ["Monitoring training progress from: " ++ status_file;
                           "Press Ctrl+C to stop monitoring" ++ nl] |} in
  match while_true update_interval world st0 with
  | (Ok true, st) => (Polling, st)
  | (Ok false, st) => (Returned, st)
  | (Raise KeyboardInterrupt, st) =>
      (Returned, {| last_iteration := last_iteration st;
                    stdout := stdout st ++ [nl ++ nl ++ "Monitoring stopped by user."] |})
  | (Raise e, st) => (Uncaught e, st)
  end.

End Monitor.

(** ** The monitor on a standard output that may refuse a line *)

(** [print] hands its text to [sys.stdout.write], which encodes it before
    it writes it, and which raises on a text that the stream's encoding
    cannot represent: [UnicodeEncodeError] on the lone surrogate that
    [json.load] returns for the JSON string ["\ud800"], on the check
    mark of the completion notice under an ASCII stream.  [write] is the
    answer of the stream to a line: [Ok tt] when the line is written,
    [Raise e] when [print] raises [e] and nothing is written.  The
    definitions of this module are those of the monitor above, line for
    line, over that [print]. *)
Module Stream.

Section Monitor.

Variable rt : runtime.
Variable write : string -> res unit.

Definition print (line : string) : M unit :=
  fun st =>
    match write line with
    | Ok _ => (Ok tt, {| last_iteration := last_iteration st;
                         stdout := stdout st ++ [line] |})
    | Raise e => (Raise e, st)
    end.

(** Lines 98-105. *)
Definition check_completed (status train_status : json) : M flow :=
  if py_eq train_status (JStr "completed") then
    print (nl ++ "✅ Training completed!") ;;;
    f <- lift (get status "current_export_file") ;;
    (if truthy f then
       export_path <- lift (subscript status "export_path") ;;
       export_file <- lift (subscript status "current_export_file") ;;
       print ("Final output: " ++ py_str rt export_path ++ "/"
              ++ py_str rt export_file)
     else ret tt) ;;;
    ret Break
  else if py_eq train_status (JStr "error") then
    print (nl ++ "❌ Training failed!") ;;;
    ret Break
  else ret Fallthrough.

(** Lines 53-105. *)
Definition try_body (update_interval : spec_float) (w : poll) : M flow :=
  match file w with
  | Absent =>
      print "Status file not found, waiting for training to start..." ;;;
      lift (time_sleep update_interval (interrupt w)) ;;;
      ret Continue
  | Unreadable e => lift (Raise e)
  | Loaded status =>
      current_iter <- lift (subscript status "current_iteration") ;;
      last <- read_last ;;
      if negb (py_eq current_iter last) then
        write_last current_iter ;;;
        rendered <- lift (render rt (now w) status current_iter) ;;
        let '(status_line, train_status) := rendered in
        print status_line ;;;
        check_completed status train_status
      else ret Fallthrough
  end.

(** Lines 107-112.  An exception that [print] raises in a handler leaves
    the inner [try]. *)
Definition handlers (e : exn) : M flow :=
  match e with
  | JSONDecodeError => print "Status file corrupted, retrying..." ;;; ret Fallthrough
  | FileNotFoundError => print "Status file disappeared, waiting..." ;;; ret Fallthrough
  | KeyError k =>
      print ("Missing key in status file: '" ++ k ++ "'") ;;; ret Fallthrough
  | _ => lift (Raise e)
  end.

(** Lines 52-114. *)
Definition iteration (update_interval : spec_float) (w : poll) : M bool :=
  fun st =>
    let tried :=
      match try_body update_interval w st with
      | (Raise e, st') => handlers e st'
      | done => done
      end in
    match tried with
    | (Ok Fallthrough, st') =>
        (lift (time_sleep update_interval (interrupt w)) ;;; ret true) st'
    | (Ok Continue, st') => (Ok true, st')
    | (Ok Break, st') => (Ok false, st')
    | (Raise e, st') => (Raise e, st')
    end.

(** Lines 51-114. *)
Fixpoint while_true (update_interval : spec_float) (world : list poll)
    (st : mstate) : res bool * mstate :=
  match world with
  | [] => (Ok true, st)
  | w :: rest =>
      match iteration update_interval w st with
      | (Ok true, st') => while_true update_interval rest st'
      | stop => stop
      end
  end.

(** Lines 36-117.  The two lines of the header are printed before the
    outer [try] is entered, the stop notice in its handler: an exception
    that [print] raises there leaves the function. *)
Definition monitor_training_progress (status_file : string)
    (update_interval : spec_float) (world : list poll)
    : ending * mstate :=
  let st0 := {| last_iteration := JInt (-1); stdout := [] |} in
  match (print ("Monitoring training progress from: " ++ status_file) ;;;
         print ("Press Ctrl+C to stop monitoring" ++ nl)) st0 with
  | (Raise e, st) => (Uncaught e, st)
  | (Ok _, st1) =>
      match while_true update_interval world st1 with
      | (Ok true, st) => (Polling, st)
      | (Ok false, st) => (Returned, st)
      | (Raise KeyboardInterrupt, st) =>
          match print (nl ++ nl ++ "Monitoring stopped by user.") st with
          | (Ok _, st') => (Returned, st')
          | (Raise e, st') => (Uncaught e, st')
          end
      | (Raise e, st) => (Uncaught e, st)
      end
  end.

End Monitor.

End Stream.

(** ** Inputs of the statements *)

(** The floats of the three examples of [format_duration] and of the
    scenario snapshot, as the parser reads their literals. *)
Definition f59_9 : spec_float := Float.of_decimal 599 1.
Definition f60_0 : spec_float := Float.of_decimal 600 1.
Definition f3600_0 : spec_float := Float.of_decimal 36000 1.

(** A float that is zero, positive or plus infinity. *)
Definition nonneg_float (f : spec_float) : bool :=
  match f with
  | S754_zero _ | S754_finite false _ _ | S754_infinity false => true
  | _ => false
  end.

(** [needle] occurs in [hay]. *)
Definition contains (needle hay : string) : Prop :=
  exists pre post, hay = pre ++ needle ++ post.

(** *** Well-formed snapshots *)

Definition is_int (v : json) : bool :=
  match v with JInt _ => true | _ => false end.
Definition is_float (v : json) : bool :=
  match v with JFloat _ => true | _ => false end.
Definition is_str (v : json) : bool :=
  match v with JStr _ => true | _ => false end.
Definition null_or (P : json -> bool) (v : json) : bool :=
  match v with JNull => true | _ => P v end.

(** A field that is there and satisfies [P]; a field that satisfies [P]
    if it is there. *)
Definition has (P : json -> bool) (o : option json) : bool :=
  match o with Some v => P v | None => false end.
Definition may (P : json -> bool) (o : option json) : bool :=
  match o with Some v => P v | None => true end.

(** A snapshot that holds all that the monitor reads of it: a JSON object
    with the seven fields the monitor reads, each of its type; the two
    metrics absent, null or floats, with [last_eval_ssim] a float whenever
    [last_eval_psnr] is one; [current_export_file] and [export_path] absent,
    null or strings, with [export_path] there whenever an export file is
    named.  [last_updated] is never read and is left free.  The two
    pairings are not part of the specification's data model, which is
    [spec_valid_snapshot] below. *)
Definition valid_snapshot (status : json) : bool :=
  match status with
  | JDict items =>
      has is_int (lookup "current_iteration" items)
      && has is_int (lookup "total_iterations" items)
      && has is_float (lookup "progress_percentage" items)
      && has is_float (lookup "elapsed_time_seconds" items)
      && has is_float (lookup "estimated_remaining_seconds" items)
      && has is_int (lookup "current_splat_count" items)
      && has is_str (lookup "status" items)
      && match lookup "last_eval_psnr" items with
         | Some (JFloat _) => has is_float (lookup "last_eval_ssim" items)
         | Some JNull | None =>
             may (null_or is_float) (lookup "last_eval_ssim" items)
         | _ => false
         end
      && match lookup "current_export_file" items with
         | Some (JStr f) =>
             if String.eqb f "" then
               may (null_or is_str) (lookup "export_path" items)
             else has (null_or is_str) (lookup "export_path" items)
         | Some JNull | None => may (null_or is_str) (lookup "export_path" items)
         | _ => false
         end
  | _ => false
  end.

(** A JSON object in which every field that is there has its type, while
    any field may be missing; [last_eval_ssim] is not null next to a
    [last_eval_psnr] that is a float. *)
Definition typed_snapshot (status : json) : bool :=
  match status with
  | JDict items =>
      may is_int (lookup "current_iteration" items)
      && may is_int (lookup "total_iterations" items)
      && may is_float (lookup "progress_percentage" items)
      && may is_float (lookup "elapsed_time_seconds" items)
      && may is_float (lookup "estimated_remaining_seconds" items)
      && may is_int (lookup "current_splat_count" items)
      && may is_str (lookup "status" items)
      && match lookup "last_eval_psnr" items with
         | Some (JFloat _) => may is_float (lookup "last_eval_ssim" items)
         | Some JNull | None => true
         | _ => false
         end
      && may (null_or is_str) (lookup "current_export_file" items)
      && may (null_or is_str) (lookup "export_path" items)
  | _ => false
  end.

(** The fields read after [current_iteration], in the order of lines
    67-76. *)
Definition read_order : list string :=
  ["progress_percentage"; "elapsed_time_seconds";
   "estimated_remaining_seconds"; "current_splat_count"; "status";
   "total_iterations"].

Definition missing (items : list (string * json)) (k : string) : bool :=
  match lookup k items with None => true | Some _ => false end.

(** The first field of [read_order] that the object lacks. *)
Definition first_missing (items : list (string * json)) : option string :=
  List.find (missing items) read_order.

Definition completed_notice : string := nl ++ "✅ Training completed!".
Definition failed_notice : string := nl ++ "❌ Training failed!".
Definition missing_key_notice (k : string) : string :=
  "Missing key in status file: '" ++ k ++ "'".

Fixpoint starts_with (needle hay : string) : bool :=
  match needle, hay with
  | EmptyString, _ => true
  | String a needle', String b hay' => Ascii.eqb a b && starts_with needle' hay'
  | _, _ => false
  end.

(** The decision procedure for [contains]. *)
Fixpoint containsb (needle hay : string) : bool :=
  starts_with needle hay
  || match hay with
     | EmptyString => false
     | String _ hay' => containsb needle hay'
     end.

(** The snapshot of the two scenarios: its eight fields, followed by the
    optional fields given in [extra]. *)
Definition scenario_items (train_status : string) (extra : list (string * json))
    : list (string * json) :=
  [("current_iteration", JInt 100);
   ("total_iterations", JInt 1000);
   ("progress_percentage", JFloat (Float.of_decimal 100 1));
   ("elapsed_time_seconds", JFloat (Float.of_decimal 605 1));
   ("estimated_remaining_seconds", JFloat (Float.of_decimal 5445 1));
   ("current_splat_count", JInt 5000);
   ("status", JStr train_status);
   ("last_updated", JStr "2025-06-28T09:34:56Z")] ++ extra.

Definition scenario_snapshot (train_status : string)
    (extra : list (string * json)) : json :=
  JDict (scenario_items train_status extra).

Definition header (status_file : string) : list string :=
  ["Monitoring training progress from: " ++ status_file;
   "Press Ctrl+C to stop monitoring" ++ nl].

(** The state in which the loop is entered. *)
Definition initial_state (status_file : string) : mstate :=
  {| last_iteration := JInt (-1); stdout := header status_file |}.

(** A pass that finds [status] in the file at the given time of day. *)
Definition sees (status : json) (time : string) : poll :=
  {| file := Loaded status; now := time; interrupt := false |}.

(** The text of the scenario snapshot's status line after the time of
    day. *)
Definition scenario_text (train_status : string) : string :=
  "] Iter 100/1000 (10.0%) | Elapsed: 1.0m | Remaining: 9.1m | Splats: 5,000 | Status: "
  ++ train_status.

(** A runtime for the closed examples, none of which prints a float or a
    container through [str]. *)
Definition sample_runtime : runtime :=
  {| repr_float := format_f 1;
     repr_container := fun _ => "";
     format_comma_float := format_f 1 |}.

Definition one : spec_float := Float.of_Z 1.
Definition zero : spec_float := S754_zero false.
Definition minus_one : spec_float := Float.of_Z (-1).

(** What [check_completed] prints after the completion notice. *)
Definition final_output (rt : runtime) (items : list (string * json))
    : list string :=
  match lookup "current_export_file" items with
  | Some f =>
      if truthy f then
        match lookup "export_path" items with
        | Some p => ["Final output: " ++ py_str rt p ++ "/" ++ py_str rt f]
        | None => []
        end
      else []
  | None => []
  end.

(** The notices that follow the status line of a snapshot with status
    [s]. *)
Definition terminal_notices (rt : runtime) (items : list (string * json))
    (s : string) : list string :=
  if String.eqb s "completed" then completed_notice :: final_output rt items
  else if String.eqb s "error" then [failed_notice]
  else [].

Definition terminal (s : string) : bool :=
  String.eqb s "completed" || String.eqb s "error".

(** A parsed object that holds [current_iteration] only. *)
Definition bare_snapshot : json := JDict [("current_iteration", JInt 100)].

(** The scenario snapshot with a null [progress_percentage]. *)
Definition null_progress_snapshot : json :=
  JDict [("current_iteration", JInt 100);
         ("total_iterations", JInt 1000);
         ("progress_percentage", JNull);
         ("elapsed_time_seconds", JFloat (Float.of_decimal 605 1));
         ("estimated_remaining_seconds", JFloat (Float.of_decimal 5445 1));
         ("current_splat_count", JInt 5000);
         ("status", JStr "training");
         ("last_updated", JStr "2025-06-28T09:34:56Z")].

(** The state of a monitor that has reported iteration 100. *)
Definition seen_100 : mstate :=
  {| last_iteration := JInt 100; stdout := [] |}.

(** *** Runs of the loop *)

(** The exception classes that the inner [try] handles. *)
Definition handled (e : exn) : bool :=
  match e with
  | JSONDecodeError | FileNotFoundError | KeyError _ => true
  | _ => false
  end.

(** The notice that a pass prints when it cannot read the artifact. *)
Definition anomaly_notice (a : artifact) : option string :=
  match a with
  | Absent => Some "Status file not found, waiting for training to start..."
  | Unreadable FileNotFoundError => Some "Status file disappeared, waiting..."
  | Unreadable JSONDecodeError => Some "Status file corrupted, retrying..."
  | _ => None
  end.

Definition anomaly_notices (world : list poll) : list string :=
  flat_map (fun w => match anomaly_notice (file w) with
                     | Some line => [line]
                     | None => []
                     end) world.

Definition stop_notice : string := nl ++ nl ++ "Monitoring stopped by user.".

(** The [current_iteration] that a pass reads, if it reads one. *)
Definition iteration_of (w : poll) : option json :=
  match file w with
  | Loaded status =>
      match subscript status "current_iteration" with
      | Ok c => Some c
      | Raise _ => None
      end
  | _ => None
  end.




Definition is_number (v : json) : bool :=
  match v with
  | JBool _ | JInt _ | JFloat _ => true
  | _ => false
  end.


(** Whether two results are the same text. *)
Definition same_text (a b : res string) : bool :=
  match a, b with
  | Ok x, Ok y => String.eqb x y
  | _, _ => false
  end.

(** [format_duration] gives the same text on the ints below [bound] as on
    the floats of the same value. *)
Definition ints_as_floats_below (bound : nat) : bool :=
  forallb (fun k => same_text (format_duration (JInt (Z.of_nat k)))
                      (format_duration (JFloat (Float.of_Z (Z.of_nat k)))))
    (seq 0 bound).

(** *** Standard output *)

(** An exception that [print] raises on some line. *)
Definition raised_by (write : string -> res unit) (e : exn) : Prop :=
  exists line, write line = Raise e.

(** An outcome of the [try] body that the [KeyError] handler takes or that
    [print] has raised. *)
Definition absorbed (write : string -> res unit) {A} (r : res A) : Prop :=
  match r with
  | Ok _ => True
  | Raise e => (exists k, e = KeyError k) \/ raised_by write e
  end.

(** The code point U+D800 as a Python [str] holds it, in the three bytes
    that UTF-8 would give it if it were a character. *)
Definition lone_surrogate : string :=
  String (ascii_of_nat 237) (String (ascii_of_nat 160)
    (String (ascii_of_nat 128) EmptyString)).

(** A text with a code point from U+D800 to U+DFFF: the byte 237 followed
    by a byte from 160 on. *)
Fixpoint has_surrogate (s : string) : bool :=
  match s with
  | String a rest =>
      match rest with
      | String b _ =>
          (Nat.eqb (nat_of_ascii a) 237 && Nat.leb 160 (nat_of_ascii b))
          || has_surrogate rest
      | EmptyString => false
      end
  | EmptyString => false
  end.

(** A standard output in UTF-8 with the [strict] error handler, Python's
    default: it writes every text but one with a surrogate. *)
Definition utf8_stdout (line : string) : res unit :=
  if has_surrogate line then Raise UnicodeEncodeError else Ok tt.

(** The scenario snapshot with the status that [json.load] returns for
    the JSON string of the escape of U+D800. *)
Definition surrogate_snapshot : json := scenario_snapshot lone_surrogate [].

(** *** The data model of the specification *)

Definition is_nonneg_int (v : json) : bool :=
  match v with JInt n => 0 <=? n | _ => false end.
Definition is_positive_int (v : json) : bool :=
  match v with JInt n => 0 <? n | _ => false end.
Definition is_nonneg_float (v : json) : bool :=
  match v with JFloat f => nonneg_float f | _ => false end.

(** A StatusSnapshot in the words of the specification's data model: a
    JSON object with [current_iteration] and [current_splat_count]
    non-negative integers, [total_iterations] a positive integer,
    [progress_percentage] a float, the two durations non-negative floats,
    [status] and [last_updated] strings, and the optional keys
    [last_eval_psnr], [last_eval_ssim] (floats) and [current_export_file],
    [export_path] (strings) each absent, null or of its type. *)
Definition spec_valid_snapshot (status : json) : bool :=
  match status with
  | JDict items =>
      has is_nonneg_int (lookup "current_iteration" items)
      && has is_positive_int (lookup "total_iterations" items)
      && has is_float (lookup "progress_percentage" items)
      && has is_nonneg_float (lookup "elapsed_time_seconds" items)
      && has is_nonneg_float (lookup "estimated_remaining_seconds" items)
      && has is_nonneg_int (lookup "current_splat_count" items)
      && has is_str (lookup "status" items)
      && has is_str (lookup "last_updated" items)
      && may (null_or is_float) (lookup "last_eval_psnr" items)
      && may (null_or is_float) (lookup "last_eval_ssim" items)
      && may (null_or is_str) (lookup "current_export_file" items)
      && may (null_or is_str) (lookup "export_path" items)
  | _ => false
  end.

(** The scenario snapshot after an evaluation that has written
    [last_eval_psnr] and left [last_eval_ssim] null. *)
Definition null_ssim_snapshot : json :=
  scenario_snapshot "training"
    [("last_eval_psnr", JFloat (Float.of_decimal 30123456 6));
     ("last_eval_ssim", JNull)].

(** The state of a monitor that has reported iteration 250. *)
Definition seen_250 : mstate :=
  {| last_iteration := JInt 250; stdout := [] |}.

(** ** The feature test: [test_status_feature.py] *)

Module TestStatusFeature.

(** How [subprocess.run] ends: the process completed, the 30 seconds ran
    out, or another exception was raised, with its text. *)
Inductive run_result : Type :=
| Completed (returncode : Z) (out err : string)
| TimeoutExpired
| Failed (message : string).

(** [test_status_file_creation], lines 15-51.  [temp_path] is the text of
    the temporary directory; what a test prints is returned with its
    verdict. *)
Definition test_status_file_creation (temp_path : string) (r : run_result)
    : list string * bool :=
  let announced := "Testing status file creation in: " ++ temp_path in
  match r with
  | Completed returncode help_text err =>
      if returncode =? 0 then
        if containsb "--save-status" help_text
           && containsb "--status-filename" help_text
        then ([announced; "✅ CLI options are correctly exposed"], true)
        else ([announced; "❌ CLI options not found in help text"], false)
      else ([announced; "❌ Failed to get help: " ++ err], false)
  | TimeoutExpired => ([announced; "❌ Command timed out"], false)
  | Failed message =>
      ([announced; "❌ Error running command: " ++ message], false)
  end.

(** Lines 58-71. *)
Definition sample_status : list (string * json) :=
  [("current_iteration", JInt 100);
   ("total_iterations", JInt 1000);
   ("progress_percentage", JFloat (Float.of_decimal 100 1));
   ("elapsed_time_seconds", JFloat (Float.of_decimal 605 1));
   ("estimated_remaining_seconds", JFloat (Float.of_decimal 5445 1));
   ("current_splat_count", JInt 5000);
   ("last_eval_psnr", JNull);
   ("last_eval_ssim", JNull);
   ("export_path", JStr "./test");
   ("current_export_file", JNull);
   ("status", JStr "training");
   ("last_updated", JStr "2025-06-28T09:34:56Z")].

(** Lines 79-83. *)
Definition expected_fields : list string :=
  ["current_iteration"; "total_iterations"; "progress_percentage";
   "elapsed_time_seconds"; "estimated_remaining_seconds";
   "current_splat_count"; "export_path"; "status"; "last_updated"].

(** What [json.dumps] and [json.loads] answer on [sample_status]: the text
    and the object parsed back from it, or an exception, with its text. *)
Inductive round_trip : Type :=
| Dumped (json_str : string) (parsed : list (string * json))
| DumpFailed (message : string).

(** Lines 85-88: the first of [fields] that is no key of [parsed]. *)
Fixpoint first_absent (fields : list string) (parsed : list (string * json))
    : option string :=
  match fields with
  | [] => None
  | field :: rest =>
      match lookup field parsed with
      | None => Some field
      | Some _ => first_absent rest parsed
      end
  end.

(** [test_status_file_structure], lines 54-96. *)
Definition test_status_file_structure (r : round_trip) : list string * bool :=
  match r with
  | Dumped json_str parsed =>
      match first_absent expected_fields parsed with
      | Some field => (["❌ Missing expected field: " ++ field], false)
      | None =>
          (["✅ Status file structure is valid";
            "Sample status file:" ++ nl ++ json_str], true)
      end
  | DumpFailed message =>
      (["❌ Error with status file structure: " ++ message], false)
  end.

(** [s * n]. *)
Fixpoint times (s : string) (n : nat) : string :=
  match n with
  | O => ""
  | S n' => s ++ times s n'
  end.

(** Lines 112-119: the loop over the tests, each given by its name and by
    what calling it prints and returns. *)
Fixpoint run_tests (tests : list (string * (list string * bool)))
    (passed : nat) : list string * nat :=
  match tests with
  | [] => ([], passed)
  | (test_name, (printed, ok)) :: rest =>
      let '(out, passed') := run_tests rest (if ok then S passed else passed) in
      let running := nl ++ "Running: " ++ test_name in
      let failed := "❌ " ++ test_name ++ " failed" in
      ((running :: times "-" 30 :: printed
        ++ (if ok then [] else [failed]) ++ out)%list,
       passed')
  end.

(** [main], lines 99-129: what it prints and the exit code it returns. *)
Definition main (temp_path : string) (r : run_result) (d : round_trip)
    : list string * Z :=
  let tests :=
    [("CLI Options Test", test_status_file_creation temp_path r);
     ("Status File Structure Test", test_status_file_structure d)] in
  let total := List.length tests in
  let '(out, passed) := run_tests tests 0 in
  let rule := nl ++ times "=" 50 in
  let summary :=
    "Test Results: " ++ str_int (Z.of_nat passed) ++ "/"
    ++ str_int (Z.of_nat total) ++ " tests passed" in
  let verdict :=
    if Nat.eqb passed total
    then "🎉 All tests passed! The status monitoring feature is working correctly."
    else "❌ Some tests failed. Please check the implementation." in
  ((["Testing AVR Brush Status Monitoring Feature"; times "=" 50]
    ++ out ++ [rule; summary; verdict])%list,
   if Nat.eqb passed total then 0 else 1).

End TestStatusFeature.

(** Passes used in the closed examples. *)
Definition training_poll : poll :=
  sees (scenario_snapshot "training" []) "12:00:00".
Definition completed_poll : poll :=
  sees (scenario_snapshot "completed" []) "12:00:05".
Definition absent_poll : poll :=
  {| file := Absent; now := "12:00:00"; interrupt := false |}.
Definition corrupted_poll : poll :=
  {| file := Unreadable JSONDecodeError; now := "12:00:01";
     interrupt := false |}.
Definition interrupted_poll : poll :=
  {| file := Absent; now := "12:00:02"; interrupt := true |}.

(** The status lines that [training_poll] and [completed_poll] draw. *)
Definition training_line : string := "[12:00:00" ++ scenario_text "training".
Definition completed_line : string := "[12:00:05" ++ scenario_text "completed".

(** ** Duration formatting *)

Lemma leb_Z_ltb_Z (n : Z) (x : spec_float) :
  Float.is_nan x = false -> Float.leb_Z n x = negb (Float.ltb_Z x n).
Proof.
  destruct x as [s|s| |s m e]; simpl; intros H; try discriminate.
  - apply Z.leb_antisym.
  - reflexivity.
  - destruct (0 <=? e); apply Z.leb_antisym.
Qed.

Lemma ltb_Z_mono (x : spec_float) (n k : Z) :
  n <= k -> Float.ltb_Z x n = true -> Float.ltb_Z x k = true.
Proof.
  intros Hnk. destruct x as [s|s| |s m e]; simpl; trivial.
  - rewrite !Z.ltb_lt. lia.
  - destruct (0 <=? e) eqn:E; rewrite !Z.ltb_lt; intros H.
    + lia.
    + apply Z.leb_gt in E.
      apply Z.lt_le_trans with (1 := H).
      rewrite !Z.shiftl_mul_pow2 by lia.
      apply Z.mul_le_mono_nonneg_r; [apply Z.pow_nonneg|]; lia.
Qed.

Lemma format_duration_float (v : spec_float) :
  format_duration (JFloat v) =
    if Float.ltb_Z v 60 then Ok (format_f 1 v ++ "s")
    else if Float.ltb_Z v 3600
         then Ok (format_f 1 (Float.div v (Float.of_Z 60)) ++ "m")
         else Ok (format_f 1 (Float.div v (Float.of_Z 3600)) ++ "h").
Proof.
  unfold format_duration. simpl.
  destruct (Float.ltb_Z v 60); simpl; [reflexivity|].
  destruct (Float.ltb_Z v 3600); reflexivity.
Qed.

Lemma format_duration_float_total (v : spec_float) :
  exists s, format_duration (JFloat v) = Ok s.
Proof.
  rewrite format_duration_float.
  destruct (Float.ltb_Z v 60); [|destruct (Float.ltb_Z v 3600)]; eauto.
Qed.

(** C5.  On every non-negative float [v], [format_duration] returns a
    string: [v] to one decimal and [s] when [v < 60]; [v / 60] to one decimal
    and [m] when [60 <= v < 3600]; [v / 3600] to one decimal and [h] when
    [3600 <= v].  The comparisons are those of the exact values.  In
    particular 59.9 gives [59.9s], 60.0 gives [1.0m] and 3600.0 gives
    [1.0h]. *)
Theorem format_duration_spec (v : spec_float) :
  nonneg_float v = true ->
  (exists s, format_duration (JFloat v) = Ok s) /\
  (Float.ltb_Z v 60 = true ->
   format_duration (JFloat v) = Ok (format_f 1 v ++ "s")) /\
  (Float.leb_Z 60 v = true -> Float.ltb_Z v 3600 = true ->
   format_duration (JFloat v)
   = Ok (format_f 1 (Float.div v (Float.of_Z 60)) ++ "m")) /\
  (Float.leb_Z 3600 v = true ->
   format_duration (JFloat v)
   = Ok (format_f 1 (Float.div v (Float.of_Z 3600)) ++ "h")) /\
  format_duration (JFloat f59_9) = Ok "59.9s" /\
  format_duration (JFloat f60_0) = Ok "1.0m" /\
  format_duration (JFloat f3600_0) = Ok "1.0h".
Proof.
  intros Hv.
  assert (Hnan : Float.is_nan v = false) by (destruct v; trivial; discriminate).
  split; [apply format_duration_float_total|].
  rewrite format_duration_float.
  refine (conj _ (conj _ (conj _ (conj _ (conj _ _))))).
  - intros ->. reflexivity.
  - intros H60 ->. rewrite (leb_Z_ltb_Z _ _ Hnan) in H60.
    apply negb_true_iff in H60. rewrite H60. reflexivity.
  - intros H. rewrite (leb_Z_ltb_Z _ _ Hnan) in H. apply negb_true_iff in H.
    rewrite H.
    destruct (Float.ltb_Z v 60) eqn:E; [|reflexivity].
    apply ltb_Z_mono with (k := 3600) in E; [congruence | lia].
  - vm_compute. reflexivity.
  - vm_compute. reflexivity.
  - vm_compute. reflexivity.
Qed.

Lemma format_duration_spec_witness :
  nonneg_float f59_9 = true /\
  Float.ltb_Z f59_9 60 = true /\
  format_duration (JFloat f59_9) = Ok (format_f 1 f59_9 ++ "s").
Proof.
  split; [reflexivity|]. split; [reflexivity|].
  apply (format_duration_spec f59_9); reflexivity.
Defined.

(** ** The poll loop *)

Ltac split_andb :=
  repeat match goal with
  | H : _ && _ = true |- _ => apply andb_prop in H; destruct H
  end.

Lemma stdout_nil (st : mstate) :
  {| last_iteration := last_iteration st; stdout := stdout st ++ [] |} = st.
Proof. destruct st; simpl. now rewrite app_nil_r. Qed.

Lemma has_int (o : option json) :
  has is_int o = true -> exists n, o = Some (JInt n).
Proof. destruct o as [[]|]; try discriminate. eauto. Qed.

Lemma has_float (o : option json) :
  has is_float o = true -> exists f, o = Some (JFloat f).
Proof. destruct o as [[]|]; try discriminate. eauto. Qed.

Lemma has_str (o : option json) :
  has is_str o = true -> exists s, o = Some (JStr s).
Proof. destruct o as [[]|]; try discriminate. eauto. Qed.

Ltac has_fields :=
  repeat match goal with
  | H : has is_int _ = true |- _ => apply has_int in H; destruct H as [? H]
  | H : has is_float _ = true |- _ => apply has_float in H; destruct H as [? H]
  | H : has is_str _ = true |- _ => apply has_str in H; destruct H as [? H]
  end.

Lemma metrics_segment_valid (items : list (string * json)) :
  match lookup "last_eval_psnr" items with
  | Some (JFloat _) => has is_float (lookup "last_eval_ssim" items)
  | Some JNull | None => may (null_or is_float) (lookup "last_eval_ssim" items)
  | _ => false
  end = true ->
  exists m, metrics_segment (JDict items) = Ok m.
Proof.
  unfold metrics_segment. simpl.
  destruct (lookup "last_eval_psnr" items) as [[]|]; try discriminate;
    simpl; eauto.
  intros H. has_fields. rewrite H. simpl. eauto.
Qed.

Section Properties.

Variable rt : runtime.

Lemma try_body_unchanged (i : spec_float) (w : poll) (st : mstate)
    (status c : json) :
  file w = Loaded status ->
  subscript status "current_iteration" = Ok c ->
  py_eq c (last_iteration st) = true ->
  try_body rt i w st = (Ok Fallthrough, st).
Proof.
  intros Hf Hc He. unfold try_body. rewrite Hf.
  unfold bind, lift, read_last. rewrite Hc, He. reflexivity.
Qed.

Lemma try_body_changed (i : spec_float) (w : poll) (st : mstate)
    (status c : json) :
  file w = Loaded status ->
  subscript status "current_iteration" = Ok c ->
  py_eq c (last_iteration st) = false ->
  try_body rt i w st =
    match render rt (now w) status c with
    | Ok (line, train_status) =>
        check_completed rt status train_status
          {| last_iteration := c; stdout := stdout st ++ [line] |}
    | Raise e => (Raise e, {| last_iteration := c; stdout := stdout st |})
    end.
Proof.
  intros Hf Hc He. unfold try_body. rewrite Hf.
  unfold bind, lift, read_last, write_last. rewrite Hc, He. simpl.
  destruct (render rt (now w) status c) as [[line ts]|e]; reflexivity.
Qed.

Lemma export_segment_valid (items : list (string * json)) :
  may (null_or is_str) (lookup "current_export_file" items) = true ->
  exists x, export_segment rt (JDict items) = Ok x.
Proof.
  unfold export_segment. simpl.
  destruct (lookup "current_export_file" items) as [[]|]; try discriminate;
    simpl; eauto.
  destruct (negb _); eauto.
Qed.

Lemma render_valid (items : list (string * json)) (now : string) (c : json) :
  valid_snapshot (JDict items) = true ->
  exists line s,
    lookup "status" items = Some (JStr s) /\
    render rt now (JDict items) c = Ok (line, JStr s).
Proof.
  unfold valid_snapshot. intros H. split_andb.
  match goal with
  | H : match lookup "last_eval_psnr" items with _ => _ end = true |- _ =>
      destruct (metrics_segment_valid items H) as [m Hm]
  end.
  destruct (export_segment_valid items) as [x Hx].
  { destruct (lookup "current_export_file" items) as [[]|];
      try discriminate; reflexivity. }
  has_fields.
  unfold render, base_line. simpl.
  repeat match goal with
  | H : lookup _ items = Some _ |- _ => rewrite H
  end.
  simpl. rewrite !format_duration_float.
  repeat match goal with
  | |- context [Float.ltb_Z ?f ?n] => destruct (Float.ltb_Z f n)
  end;
  simpl; rewrite Hm, Hx; simpl; eauto.
Qed.

Lemma check_completed_valid (items : list (string * json)) (s : string)
    (st : mstate) :
  match lookup "current_export_file" items with
  | Some (JStr f) =>
      if String.eqb f "" then
        may (null_or is_str) (lookup "export_path" items)
      else has (null_or is_str) (lookup "export_path" items)
  | Some JNull | None => may (null_or is_str) (lookup "export_path" items)
  | _ => false
  end = true ->
  check_completed rt (JDict items) (JStr s) st =
    (Ok (if terminal s then Break else Fallthrough),
     {| last_iteration := last_iteration st;
        stdout := stdout st ++ terminal_notices rt items s |}).
Proof.
  intros H. unfold check_completed, terminal, terminal_notices, final_output.
  simpl. destruct (String.eqb s "completed"); simpl.
  - unfold bind, print, lift, ret. simpl.
    destruct (lookup "current_export_file" items) as [[]|];
      try discriminate; simpl; try reflexivity.
    destruct (String.eqb s0 ""); simpl; [reflexivity|].
    destruct (lookup "export_path" items) as [p|]; [|discriminate].
    simpl. rewrite <- app_assoc. reflexivity.
  - destruct (String.eqb s "error"); simpl.
    + reflexivity.
    + unfold ret. now rewrite stdout_nil.
Qed.

(** One pass over a valid snapshot. *)
Lemma try_body_valid (i : spec_float) (w : poll) (st : mstate)
    (items : list (string * json)) :
  file w = Loaded (JDict items) ->
  valid_snapshot (JDict items) = true ->
  exists n s line,
    lookup "current_iteration" items = Some (JInt n) /\
    lookup "status" items = Some (JStr s) /\
    render rt (now w) (JDict items) (JInt n) = Ok (line, JStr s) /\
    try_body rt i w st =
      if py_eq (JInt n) (last_iteration st) then (Ok Fallthrough, st)
      else (Ok (if terminal s then Break else Fallthrough),
            {| last_iteration := JInt n;
               stdout := stdout st ++ line :: terminal_notices rt items s |}).
Proof.
  intros Hf Hv.
  assert (Hc : exists n, lookup "current_iteration" items = Some (JInt n)).
  { unfold valid_snapshot in Hv. split_andb. now apply has_int. }
  destruct Hc as [n Hc]. exists n.
  destruct (render_valid items (now w) (JInt n) Hv) as [line [s [Hs Hr]]].
  exists s, line. repeat split; trivial.
  destruct (py_eq (JInt n) (last_iteration st)) eqn:E.
  - apply try_body_unchanged with (status := JDict items) (c := JInt n);
      trivial. simpl. now rewrite Hc.
  - rewrite try_body_changed with (status := JDict items) (c := JInt n);
      trivial; [|simpl; now rewrite Hc].
    rewrite Hr. rewrite check_completed_valid.
    + simpl. now rewrite <- app_assoc.
    + unfold valid_snapshot in Hv. split_andb. assumption.
Qed.

(** The state in which a pass leaves the loop's variables, whatever the
    sleep that follows does. *)
Lemma iteration_state (i : spec_float) (w : poll) (st st' : mstate)
    (f : flow) :
  try_body rt i w st = (Ok f, st') ->
  snd (iteration rt i w st) = st'.
Proof.
  intros H. unfold iteration. rewrite H.
  destruct f; trivial.
  unfold bind, lift, ret. destruct (time_sleep i (interrupt w)); reflexivity.
Qed.

Lemma iteration_break (i : spec_float) (w : poll) (st st' : mstate) :
  try_body rt i w st = (Ok Break, st') ->
  iteration rt i w st = (Ok false, st').
Proof. intros H. unfold iteration. now rewrite H. Qed.

Lemma iteration_fallthrough (i : spec_float) (w : poll) (st st' : mstate) :
  try_body rt i w st = (Ok Fallthrough, st') ->
  iteration rt i w st =
    match time_sleep i (interrupt w) with
    | Ok _ => (Ok true, st')
    | Raise e => (Raise e, st')
    end.
Proof.
  intros H. unfold iteration. rewrite H. unfold bind, lift, ret.
  destruct (time_sleep i (interrupt w)); reflexivity.
Qed.

Lemma iteration_key_error (i : spec_float) (w : poll) (st st' : mstate)
    (k : string) :
  try_body rt i w st = (Raise (KeyError k), st') ->
  iteration rt i w st =
    let st'' := {| last_iteration := last_iteration st';
                   stdout := stdout st' ++ [missing_key_notice k] |} in
    match time_sleep i (interrupt w) with
    | Ok _ => (Ok true, st'')
    | Raise e => (Raise e, st'')
    end.
Proof.
  intros H. unfold iteration. rewrite H. unfold handlers, bind, lift, ret, print.
  simpl. destruct (time_sleep i (interrupt w)); reflexivity.
Qed.

Lemma check_completed_last (status train_status : json) (st : mstate) :
  last_iteration (snd (check_completed rt status train_status st))
  = last_iteration st.
Proof.
  unfold check_completed.
  destruct (py_eq train_status (JStr "completed")).
  - unfold bind, print, lift, ret. simpl.
    destruct (get status "current_export_file") as [f|]; simpl; trivial.
    destruct (truthy f); simpl; trivial.
    destruct (subscript status "export_path"); simpl; trivial.
    destruct (subscript status "current_export_file"); simpl; trivial.
  - destruct (py_eq train_status (JStr "error")); reflexivity.
Qed.

Lemma handlers_last (e : exn) (st : mstate) :
  last_iteration (snd (handlers e st)) = last_iteration st.
Proof. destruct e; reflexivity. Qed.

(** What a pass does to [last_iteration] is settled by the [try] body. *)
Lemma iteration_last (i : spec_float) (w : poll) (st : mstate) :
  last_iteration (snd (iteration rt i w st))
  = last_iteration (snd (try_body rt i w st)).
Proof.
  unfold iteration.
  destruct (try_body rt i w st) as [[f|e] st']; simpl.
  - destruct f; trivial. unfold bind, lift, ret.
    destruct (time_sleep i (interrupt w)); reflexivity.
  - pose proof (handlers_last e st') as Hh.
    destruct (handlers e st') as [[f|e'] st'']; simpl in *; trivial.
    destruct f; trivial. unfold bind, lift, ret.
    destruct (time_sleep i (interrupt w)); trivial.
Qed.

(** [last_iteration] is assigned as soon as the comparison fails, before
    anything that may raise. *)
Lemma iteration_last_changed (i : spec_float) (w : poll) (st : mstate)
    (status c : json) :
  file w = Loaded status ->
  subscript status "current_iteration" = Ok c ->
  py_eq c (last_iteration st) = false ->
  last_iteration (snd (iteration rt i w st)) = c.
Proof.
  intros Hf Hc E. rewrite iteration_last.
  rewrite try_body_changed with (status := status) (c := c); trivial.
  destruct (render rt (now w) status c) as [[line ts]|e]; trivial.
  now rewrite check_completed_last.
Qed.

(** *** Snapshots with missing fields *)

Lemma render_typed (items : list (string * json)) (now : string) (c : json) :
  typed_snapshot (JDict items) = true ->
  match first_missing items with
  | Some k => render rt now (JDict items) c = Raise (KeyError k)
  | None =>
      (exists line s, lookup "status" items = Some (JStr s) /\
                      render rt now (JDict items) c = Ok (line, JStr s))
      \/ render rt now (JDict items) c = Raise (KeyError "last_eval_ssim")
  end.
Proof.
  unfold typed_snapshot. intros H. split_andb.
  destruct (export_segment_valid items) as [x Hx]; [assumption|].
  unfold first_missing, read_order, missing, render, base_line. simpl.
  destruct (lookup "progress_percentage" items) as [[]|];
    try discriminate; simpl; trivial.
  destruct (lookup "elapsed_time_seconds" items) as [[]|];
    try discriminate; simpl; trivial.
  rewrite format_duration_float.
  destruct (lookup "estimated_remaining_seconds" items) as [[]|];
    try discriminate; simpl;
    [|repeat match goal with
      | |- context [Float.ltb_Z ?f ?n] => destruct (Float.ltb_Z f n)
      end; reflexivity].
  rewrite format_duration_float.
  destruct (lookup "current_splat_count" items) as [[]|];
    try discriminate; simpl;
    [|repeat match goal with
      | |- context [Float.ltb_Z ?f ?n] => destruct (Float.ltb_Z f n)
      end; reflexivity].
  destruct (lookup "status" items) as [[]|];
    try discriminate; simpl;
    [|repeat match goal with
      | |- context [Float.ltb_Z ?f ?n] => destruct (Float.ltb_Z f n)
      end; reflexivity].
  destruct (lookup "total_iterations" items) as [[]|];
    try discriminate; simpl;
    [|repeat match goal with
      | |- context [Float.ltb_Z ?f ?n] => destruct (Float.ltb_Z f n)
      end; reflexivity].
  assert (Hm : (exists m, metrics_segment (JDict items) = Ok m)
               \/ metrics_segment (JDict items)
                  = Raise (KeyError "last_eval_ssim")).
  { unfold metrics_segment. simpl.
    destruct (lookup "last_eval_psnr" items) as [[]|];
      try discriminate; simpl; eauto.
    destruct (lookup "last_eval_ssim" items) as [[]|];
      try discriminate; simpl; eauto. }
  destruct Hm as [[m Hm]|Hm];
    repeat match goal with
    | |- context [Float.ltb_Z ?f ?n] => destruct (Float.ltb_Z f n)
    end; simpl; rewrite Hm; simpl; try rewrite Hx; simpl; eauto.
Qed.

(** *** Change detection *)

(** On a snapshot with all the fields the monitor reads, whose two
    metrics are both floats or both null or absent, a pass prints nothing
    when [current_iteration] equals [last_iteration]; when it differs, the
    pass prints exactly one status line, the rendering of the snapshot,
    and sets [last_iteration] to the new value.  The only other output
    of such a pass is the terminal notice of a [completed] or [error]
    snapshot, so for any other status the status line is all that is
    printed. *)
Theorem change_detection (i : spec_float) (w : poll) (st : mstate)
    (items : list (string * json)) (c : json) :
  file w = Loaded (JDict items) ->
  valid_snapshot (JDict items) = true ->
  lookup "current_iteration" items = Some c ->
  (py_eq c (last_iteration st) = true ->
   snd (iteration rt i w st) = st) /\
  (py_eq c (last_iteration st) = false ->
   exists line s,
     render rt (now w) (JDict items) c = Ok (line, JStr s) /\
     last_iteration (snd (iteration rt i w st)) = c /\
     stdout (snd (iteration rt i w st))
     = (stdout st ++ line :: terminal_notices rt items s)%list /\
     (terminal s = false ->
      stdout (snd (iteration rt i w st)) = (stdout st ++ [line])%list)).
Proof.
  intros Hf Hv Hc.
  destruct (try_body_valid i w st items Hf Hv)
    as [n [s [line [Hn [Hs [Hr Hb]]]]]].
  rewrite Hc in Hn. injection Hn as ->.
  split; intros E; rewrite E in Hb.
  - now apply iteration_state with (f := Fallthrough).
  - exists line, s. apply iteration_state in Hb. rewrite Hb. simpl.
    repeat split; trivial.
    intros Ht. unfold terminal_notices. unfold terminal in Ht.
    apply orb_false_elim in Ht. destruct Ht as [-> ->]. reflexivity.
Qed.

(** *** Terminal states *)


(** *** Anomalies *)

(** C3, as the code has it.  For a JSON object whose fields, where
    present, have their types: without [current_iteration] the pass
    prints one notice naming that key and leaves [last_iteration] as it
    was; with a [current_iteration] that differs from [last_iteration]
    and another of the fields read for the status line missing, the pass
    prints one notice, naming the first missing field in reading order,
    and no status line; with a [current_iteration] equal to
    [last_iteration] no other field is read, nothing is printed and
    [last_iteration] is left as it was. *)
Theorem missing_key_reported (i : spec_float) (w : poll) (st : mstate)
    (items : list (string * json)) :
  file w = Loaded (JDict items) ->
  typed_snapshot (JDict items) = true ->
  (lookup "current_iteration" items = None ->
   snd (iteration rt i w st)
   = {| last_iteration := last_iteration st;
        stdout := stdout st ++ [missing_key_notice "current_iteration"] |}) /\
  (forall c k,
     lookup "current_iteration" items = Some c ->
     py_eq c (last_iteration st) = false ->
     first_missing items = Some k ->
     stdout (snd (iteration rt i w st))
     = (stdout st ++ [missing_key_notice k])%list) /\
  (forall c,
     lookup "current_iteration" items = Some c ->
     py_eq c (last_iteration st) = true ->
     snd (iteration rt i w st) = st).
Proof.
  intros Hf Ht. repeat split.
  - intros Hc.
    rewrite iteration_key_error
      with (st' := st) (k := "current_iteration").
    + simpl. destruct (time_sleep i (interrupt w)); reflexivity.
    + unfold try_body. rewrite Hf. unfold bind, lift. simpl. now rewrite Hc.
  - intros c k Hc E Hk.
    pose proof (render_typed items (now w) c Ht) as Hr. rewrite Hk in Hr.
    rewrite iteration_key_error
      with (st' := {| last_iteration := c; stdout := stdout st |}) (k := k).
    + simpl. destruct (time_sleep i (interrupt w)); reflexivity.
    + rewrite try_body_changed with (status := JDict items) (c := c);
        trivial; [|simpl; now rewrite Hc].
      now rewrite Hr.
  - intros c Hc E. apply iteration_state with (f := Fallthrough).
    apply try_body_unchanged with (status := JDict items) (c := c); trivial.
    simpl. now rewrite Hc.
Qed.

End Properties.

(** ** Scenarios *)

Lemma append_assoc (a b c : string) : (a ++ b) ++ c = a ++ (b ++ c).
Proof. induction a as [|x a IH]; simpl; [reflexivity | now rewrite IH]. Qed.

Lemma starts_with_sound (needle hay : string) :
  starts_with needle hay = true -> exists post, hay = needle ++ post.
Proof.
  revert hay. induction needle as [|a needle IH]; intros hay H.
  - exists hay. reflexivity.
  - destruct hay as [|b hay]; [discriminate|]. simpl in H.
    apply andb_prop in H. destruct H as [Hab H].
    apply Ascii.eqb_eq in Hab. subst b.
    destruct (IH hay H) as [post ->]. exists post. reflexivity.
Qed.

Lemma containsb_sound (needle hay : string) :
  containsb needle hay = true -> contains needle hay.
Proof.
  induction hay as [|b hay IH]; simpl; intros H.
  - rewrite orb_false_r in H. apply starts_with_sound in H.
    destruct H as [post ->]. exists "", post. reflexivity.
  - apply orb_prop in H. destruct H as [H|H].
    + apply starts_with_sound in H. destruct H as [post ->].
      exists "", post. reflexivity.
    + destruct (IH H) as [pre [post ->]].
      exists (String b pre), post. reflexivity.
Qed.

Lemma contains_app_r (needle pre hay : string) :
  contains needle hay -> contains needle (pre ++ hay).
Proof.
  intros [p [q ->]]. exists (pre ++ p), q. now rewrite append_assoc.
Qed.

Lemma append_nil_r (s : string) : s ++ "" = s.
Proof. induction s as [|a s IH]; simpl; [reflexivity | now rewrite IH]. Qed.

Lemma time_sleep_cases (i : spec_float) (b : bool) :
  time_sleep i b = Ok tt \/ time_sleep i b = Raise ValueError
  \/ time_sleep i b = Raise OverflowError
  \/ time_sleep i b = Raise KeyboardInterrupt.
Proof.
  unfold time_sleep.
  destruct i as [s|s| |s m e]; auto;
    match goal with |- context [if ?c then _ else _] => destruct c end;
    auto; try destruct s; destruct b; auto.
Qed.

Lemma time_sleep_uninterrupted (i : spec_float) :
  time_sleep i false = Ok tt \/ time_sleep i false = Raise ValueError
  \/ time_sleep i false = Raise OverflowError.
Proof.
  unfold time_sleep.
  destruct i as [s|s| |s m e]; auto;
    match goal with |- context [if ?c then _ else _] => destruct c end;
    auto; destruct s; auto.
Qed.

Lemma monitor_unfold (rt : runtime) (status_file : string) (i : spec_float)
    (world : list poll) :
  monitor_training_progress rt status_file i world =
    match while_true rt i world (initial_state status_file) with
    | (Ok true, st) => (Polling, st)
    | (Ok false, st) => (Returned, st)
    | (Raise KeyboardInterrupt, st) =>
        (Returned,
         {| last_iteration := last_iteration st;
            stdout := stdout st ++ [nl ++ nl ++ "Monitoring stopped by user."] |})
    | (Raise e, st) => (Uncaught e, st)
    end.
Proof. reflexivity. Qed.

Lemma while_true_cons (rt : runtime) (i : spec_float) (w : poll)
    (world : list poll) (st : mstate) :
  while_true rt i (w :: world) st =
    match iteration rt i w st with
    | (Ok true, st') => while_true rt i world st'
    | stop => stop
    end.
Proof. reflexivity. Qed.

(** A run over a single pass. *)
Lemma monitor_one_pass (rt : runtime) (status_file : string) (i : spec_float)
    (w : poll) :
  monitor_training_progress rt status_file i [w] =
    match iteration rt i w (initial_state status_file) with
    | (Ok true, st) => (Polling, st)
    | (Ok false, st) => (Returned, st)
    | (Raise KeyboardInterrupt, st) =>
        (Returned,
         {| last_iteration := last_iteration st;
            stdout := stdout st ++ [nl ++ nl ++ "Monitoring stopped by user."] |})
    | (Raise e, st) => (Uncaught e, st)
    end.
Proof.
  unfold monitor_training_progress, while_true, initial_state, header.
  destruct (iteration rt i w _) as [[[]|e] st]; reflexivity.
Qed.

(** The state after a single uninterrupted pass that falls through to the
    sleep. *)
Lemma monitor_one_fallthrough (rt : runtime) (status_file time : string)
    (i : spec_float) (status : json) (st : mstate) :
  try_body rt i (sees status time) (initial_state status_file)
  = (Ok Fallthrough, st) ->
  snd (monitor_training_progress rt status_file i [sees status time]) = st.
Proof.
  intros H. rewrite monitor_one_pass.
  rewrite (iteration_fallthrough rt _ _ _ _ H). simpl.
  destruct (time_sleep_uninterrupted i) as [-> | [-> | ->]]; reflexivity.
Qed.

Lemma scenario_training_render (rt : runtime) (time : string) :
  render rt time (scenario_snapshot "training" []) (JInt 100)
  = Ok ("[" ++ time ++ scenario_text "training", JStr "training").
Proof.
  cbv -[String.append]. simpl. rewrite !append_nil_r. reflexivity.
Qed.

(** C8.  A monitor started on the scenario snapshot, with
    [last_iteration] at its initial -1, prints after its two header lines
    exactly one line: the time of day followed by the iteration count, the
    percentage, the two durations, the splat count and the status, with no
    metrics segment and no export segment. *)
Theorem scenario_training (rt : runtime) (status_file time : string)
    (i : spec_float) :
  let status := scenario_snapshot "training" [] in
  let line := "[" ++ time ++ scenario_text "training" in
  snd (monitor_training_progress rt status_file i [sees status time])
  = {| last_iteration := JInt 100;
       stdout := header status_file ++ [line] |} /\
  contains "Iter 100/1000" line /\
  contains "(10.0%)" line /\
  contains "Elapsed: 1.0m" line /\
  contains "Remaining: 9.1m" line /\
  contains "Splats: 5,000" line /\
  contains "Status: training" line /\
  metrics_segment status = Ok "" /\
  export_segment rt status = Ok "".
Proof.
  intros status line.
  assert (Hc : forall needle, containsb needle (scenario_text "training") = true
                              -> contains needle line).
  { intros needle H. apply (contains_app_r needle "["), contains_app_r.
    now apply containsb_sound. }
  refine (conj _ (conj _ (conj _ (conj _ (conj _ (conj _ (conj _ (conj _ _)))))))).
  - apply monitor_one_fallthrough.
    rewrite try_body_changed
      with (status := status) (c := JInt 100); try reflexivity.
    simpl now. rewrite scenario_training_render. reflexivity.
  - apply Hc. vm_compute. reflexivity.
  - apply Hc. vm_compute. reflexivity.
  - apply Hc. vm_compute. reflexivity.
  - apply Hc. vm_compute. reflexivity.
  - apply Hc. vm_compute. reflexivity.
  - apply Hc. vm_compute. reflexivity.
  - reflexivity.
  - reflexivity.
Qed.

Lemma scenario_completed_render_named (rt : runtime) (time : string) :
  render rt time
    (scenario_snapshot "completed"
       [("current_export_file", JStr "final.ply");
        ("export_path", JStr "./out")])
    (JInt 100)
  = Ok ("[" ++ time ++ scenario_text "completed" ++ " | Last export: final.ply",
        JStr "completed").
Proof.
  cbv -[String.append]. simpl. rewrite !append_assoc. reflexivity.
Qed.

Lemma scenario_completed_render_unnamed (rt : runtime) (time : string) :
  render rt time
    (scenario_snapshot "completed"
       [("current_export_file", JStr "final.ply")])
    (JInt 100)
  = Ok ("[" ++ time ++ scenario_text "completed" ++ " | Last export: final.ply",
        JStr "completed").
Proof.
  cbv -[String.append]. simpl. rewrite !append_assoc. reflexivity.
Qed.

(** C7.  The second scenario: on the scenario snapshot with status
    [completed], [current_export_file] [final.ply] and [export_path]
    [./out], the monitor prints the status line, the completion notice and
    a line naming [./out/final.ply], and returns, whatever the world holds
    next.  Without [export_path] the same snapshot makes the monitor print
    the status line, the completion notice and a missing-key notice, and
    the loop goes on: a second pass over the same file prints nothing and
    neither pass leaves the loop. *)
Theorem scenario_completed (rt : runtime) (status_file time time' : string) :
  let line :=
    "[" ++ time ++ scenario_text "completed" ++ " | Last export: final.ply" in
  let named := scenario_snapshot "completed"
                 [("current_export_file", JStr "final.ply");
                  ("export_path", JStr "./out")] in
  let unnamed := scenario_snapshot "completed"
                   [("current_export_file", JStr "final.ply")] in
  (forall world,
     monitor_training_progress rt status_file one (sees named time :: world)
     = (Returned,
        {| last_iteration := JInt 100;
           stdout := header status_file
                     ++ [line; completed_notice;
                         "Final output: ./out/final.ply"] |})) /\
  monitor_training_progress rt status_file one
    [sees unnamed time; sees unnamed time']
  = (Polling,
     {| last_iteration := JInt 100;
        stdout := header status_file
                  ++ [line; completed_notice;
                      missing_key_notice "export_path"] |}).
Proof.
  intros line named unnamed. split.
  - intros world. rewrite monitor_unfold, while_true_cons.
    rewrite (iteration_break rt one (sees named time) (initial_state status_file)
               {| last_iteration := JInt 100;
                  stdout := header status_file
                            ++ [line; completed_notice;
                                "Final output: ./out/final.ply"] |}).
    + reflexivity.
    + rewrite try_body_changed
        with (status := named) (c := JInt 100); try reflexivity.
      simpl now. unfold named. rewrite scenario_completed_render_named.
      reflexivity.
  - rewrite monitor_unfold, while_true_cons.
    rewrite (iteration_key_error rt one (sees unnamed time)
               (initial_state status_file)
               {| last_iteration := JInt 100;
                  stdout := header status_file ++ [line; completed_notice] |}
               "export_path").
    + simpl time_sleep. cbv iota zeta. rewrite while_true_cons.
      match goal with
      | |- context [iteration rt one (sees unnamed time') ?st] =>
          rewrite (iteration_fallthrough rt one (sees unnamed time') st st)
      end.
      * reflexivity.
      * apply try_body_unchanged with (status := unnamed) (c := JInt 100);
          reflexivity.
    + rewrite try_body_changed
        with (status := unnamed) (c := JInt 100); try reflexivity.
      simpl now. unfold unnamed. rewrite scenario_completed_render_unnamed.
      reflexivity.
Qed.

(** C6.  The metrics segment is guarded by [last_eval_psnr] alone.  With
    both metrics floats the segment shows PSNR to two decimals and SSIM to
    three; with [last_eval_psnr] null there is none.  With
    [last_eval_psnr] a float and [last_eval_ssim] null, formatting the
    null raises [TypeError], which no handler takes: the monitor ends with
    the exception and no status line; with [last_eval_ssim] absent the pass
    prints a missing-key notice instead of the status line. *)
Theorem metrics_guarded_by_psnr (rt : runtime) (status_file time : string) :
  let psnr := ("last_eval_psnr", JFloat (Float.of_decimal 30123456 6)) in
  let ssim := ("last_eval_ssim", JFloat (Float.of_decimal 98765 5)) in
  metrics_segment (scenario_snapshot "training" [psnr; ssim])
  = Ok " | PSNR: 30.12 | SSIM: 0.988" /\
  metrics_segment
    (scenario_snapshot "training" [("last_eval_psnr", JNull); ssim])
  = Ok "" /\
  monitor_training_progress rt status_file one
    [sees (scenario_snapshot "training" [psnr; ("last_eval_ssim", JNull)]) time]
  = (Uncaught TypeError,
     {| last_iteration := JInt 100; stdout := header status_file |}) /\
  monitor_training_progress rt status_file one
    [sees (scenario_snapshot "training" [psnr]) time]
  = (Polling,
     {| last_iteration := JInt 100;
        stdout := header status_file
                  ++ [missing_key_notice "last_eval_ssim"] |}).
Proof.
  intros psnr ssim.
  refine (conj _ (conj _ (conj _ _))).
  - vm_compute. reflexivity.
  - vm_compute. reflexivity.
  - vm_compute. reflexivity.
  - vm_compute. reflexivity.
Qed.

(** C4.  The snapshot of the scenario with [last_eval_psnr] a float and
    [last_eval_ssim] null is a StatusSnapshot of the data model, and its
    [current_iteration] differs from the [last_iteration] of a monitor
    that has just started; yet the pass over it prints no line: it ends
    with [TypeError], having set [last_iteration] to the new value. *)
Theorem changed_iteration_without_line (rt : runtime)
    (status_file time : string) (i : spec_float) :
  spec_valid_snapshot null_ssim_snapshot = true /\
  subscript null_ssim_snapshot "current_iteration" = Ok (JInt 100) /\
  py_eq (JInt 100) (last_iteration (initial_state status_file)) = false /\
  iteration rt i (sees null_ssim_snapshot time) (initial_state status_file)
  = (Raise TypeError,
     {| last_iteration := JInt 100; stdout := header status_file |}).
Proof.
  refine (conj _ (conj _ (conj _ _))).
  - vm_compute. reflexivity.
  - vm_compute. reflexivity.
  - vm_compute. reflexivity.
  - vm_compute. reflexivity.
Qed.

(** ** The poll interval *)

Section Interval.

Variable rt : runtime.

Lemma check_completed_flow (status train_status : json) (st : mstate) :
  fst (check_completed rt status train_status st) <> Ok Continue.
Proof.
  unfold check_completed.
  destruct (py_eq train_status (JStr "completed")).
  - unfold bind, print, lift, ret. simpl.
    destruct (get status "current_export_file") as [f|e]; simpl;
      [|discriminate].
    destruct (truthy f); simpl; [|discriminate].
    destruct (subscript status "export_path"); simpl; [|discriminate].
    destruct (subscript status "current_export_file"); simpl; discriminate.
  - destruct (py_eq train_status (JStr "error")); simpl; discriminate.
Qed.

(** A pass either ends the same way under every interval, and then not
    by going round again, or it reaches the sleep of line 55 or 114 in a
    state that does not depend on the interval. *)
Lemma iteration_sleep_cases (w : poll) (st : mstate) :
  (exists r st', r <> Ok true /\
                 forall i, iteration rt i w st = (r, st'))
  \/ (exists st',
        forall i, iteration rt i w st =
                    match time_sleep i (interrupt w) with
                    | Ok _ => (Ok true, st')
                    | Raise e => (Raise e, st')
                    end).
Proof.
  destruct (file w) as [|e0|status] eqn:Hf.
  - right. eexists. intros i. unfold iteration, try_body. rewrite Hf.
    unfold bind, print, lift, ret. simpl.
    destruct (time_sleep_cases i (interrupt w)) as [-> | [-> | [-> | ->]]];
      reflexivity.
  - assert (Hi : forall i, try_body rt i w st = (Raise e0, st)).
    { intros i. unfold try_body. now rewrite Hf. }
    destruct e0;
      try (left; eexists; eexists; split;
           [|intros i; unfold iteration; rewrite Hi; reflexivity];
           discriminate);
      right; eexists; intros i; unfold iteration; rewrite Hi;
      unfold handlers, bind, print, lift, ret; simpl;
      destruct (time_sleep i (interrupt w)) as [[]|]; reflexivity.
  - assert (Hi : forall i, try_body rt i w st = try_body rt one w st).
    { intros i. unfold try_body. now rewrite Hf. }
    assert (Hk : fst (try_body rt one w st) <> Ok Continue).
    { destruct (subscript status "current_iteration") as [c|e] eqn:Hc.
      - destruct (py_eq c (last_iteration st)) eqn:E.
        + rewrite try_body_unchanged with (status := status) (c := c);
            trivial. discriminate.
        + rewrite try_body_changed with (status := status) (c := c); trivial.
          destruct (render rt (now w) status c) as [[line ts]|e];
            [apply check_completed_flow | discriminate].
      - unfold try_body. rewrite Hf. unfold bind, lift. rewrite Hc.
        discriminate. }
    destruct (try_body rt one w st) as [[[]|e] st'] eqn:Ht.
    + right. exists st'. intros i. apply iteration_fallthrough.
      now rewrite Hi.
    + now elim Hk.
    + left. exists (Ok false), st'. split; [discriminate|].
      intros i. apply iteration_break. now rewrite Hi.
    + destruct e;
        try (left; eexists; eexists; split;
             [|intros i; unfold iteration; rewrite Hi; reflexivity];
             discriminate);
        right; eexists; intros i; unfold iteration; rewrite Hi;
        unfold handlers, bind, print, lift, ret; simpl;
        destruct (time_sleep i (interrupt w)) as [[]|]; reflexivity.
Qed.

Lemma time_sleep_zero (s b : bool) :
  time_sleep (S754_zero s) b = time_sleep one b.
Proof. destruct s; reflexivity. Qed.

(** A negative or NaN length is refused with one of two exceptions. *)
Lemma time_sleep_refused (i : spec_float) (b : bool) :
  nonneg_float i = false ->
  time_sleep i b = Raise ValueError \/ time_sleep i b = Raise OverflowError.
Proof.
  unfold time_sleep.
  destruct i as [s|s| |s m e]; try destruct s; try discriminate; intros _;
    auto;
    match goal with |- context [if ?c then _ else _] => destruct c end; auto.
Qed.

Lemma while_true_zero (s : bool) (world : list poll) (st : mstate) :
  while_true rt (S754_zero s) world st = while_true rt one world st.
Proof.
  revert st. induction world as [|w world IH]; intros st; simpl; trivial.
  assert (E : iteration rt (S754_zero s) w st = iteration rt one w st).
  { destruct (iteration_sleep_cases w st) as [[r [st' [_ H]]]|[st' H]];
      rewrite !H; reflexivity. }
  rewrite E. destruct (iteration rt one w st) as [[[]|e] st']; trivial.
Qed.

(** C9, as the code has it.  The interval is never checked before the
    loop.  Whatever the interval, an uninterrupted first pass prints the
    same lines and leaves the same [last_iteration] as under an interval
    of one second.  With a zero interval the monitor behaves on every
    world as with one second.  With a negative or NaN interval the first
    pass is still made; the run ends not before that pass, with the
    exception of the first sleep that is reached ([ValueError], or
    [OverflowError] for a length out of range), unless the pass itself
    ends the run. *)
Theorem interval_not_validated (status_file : string) (i : spec_float)
    (w : poll) :
  interrupt w = false ->
  snd (monitor_training_progress rt status_file i [w])
  = snd (monitor_training_progress rt status_file one [w]) /\
  (forall s world,
     monitor_training_progress rt status_file (S754_zero s) world
     = monitor_training_progress rt status_file one world) /\
  (nonneg_float i = false ->
   fst (monitor_training_progress rt status_file i [w]) <> Polling /\
   (fst (monitor_training_progress rt status_file one [w]) = Polling ->
    fst (monitor_training_progress rt status_file i [w])
    = Uncaught ValueError
    \/ fst (monitor_training_progress rt status_file i [w])
       = Uncaught OverflowError)).
Proof.
  intros Hw.
  refine (conj _ (conj _ _)).
  - rewrite !monitor_one_pass.
    destruct (iteration_sleep_cases w (initial_state status_file))
      as [[r [st' [_ H]]]|[st' H]]; rewrite !H; [reflexivity|].
    rewrite Hw.
    destruct (time_sleep_uninterrupted i) as [-> | [-> | ->]]; reflexivity.
  - intros s world. rewrite !monitor_unfold.
    now rewrite while_true_zero.
  - intros Hi. rewrite !monitor_one_pass.
    destruct (iteration_sleep_cases w (initial_state status_file))
      as [[r [st' [Hr H]]]|[st' H]]; rewrite !H.
    + split.
      * destruct r as [[]|[]]; simpl; try discriminate. now elim Hr.
      * destruct r as [[]|[]]; simpl; try discriminate. now elim Hr.
    + destruct (time_sleep_refused i (interrupt w) Hi) as [-> | ->]; simpl;
        (split; [discriminate | auto]).
Qed.

End Interval.

(** ** Closed instances *)



(** Against C2 as stated: a well-formed JSON document that is a list, and
    a snapshot whose [progress_percentage] is null, each end the monitor
    with an uncaught [TypeError]; no notice is printed. *)
Lemma uncaught_type_error :
  monitor_training_progress sample_runtime "status.json" one
    [sees (JList []) "12:00:00"]
  = (Uncaught TypeError, initial_state "status.json")
  /\ monitor_training_progress sample_runtime "status.json" one
       [sees null_progress_snapshot "12:00:00"]
     = (Uncaught TypeError,
        {| last_iteration := JInt 100;
           stdout := header "status.json" |}).
Proof. split; vm_compute; reflexivity. Qed.

(** Against C3 as stated: on an object without [progress_percentage] the
    pass prints the notice but has already moved [last_iteration] from -1
    to 100; and once [last_iteration] is 100 the same object, which lacks
    [status] as well, draws no notice at all. *)
Lemma missing_key_moves_last_iteration :
  iteration sample_runtime one (sees bare_snapshot "12:00:00")
    (initial_state "status.json")
  = (Ok true,
     {| last_iteration := JInt 100;
        stdout := header "status.json"
                  ++ [missing_key_notice "progress_percentage"] |})
  /\ iteration sample_runtime one (sees bare_snapshot "12:00:00") seen_100
     = (Ok true, seen_100).
Proof. split; vm_compute; reflexivity. Qed.

Lemma missing_key_reported_witness :
  typed_snapshot bare_snapshot = true /\
  stdout (snd (iteration sample_runtime one (sees bare_snapshot "12:00:00")
                 (initial_state "status.json")))
  = (stdout (initial_state "status.json")
     ++ [missing_key_notice "progress_percentage"])%list.
Proof.
  split; [reflexivity|].
  apply (proj1 (proj2
           (missing_key_reported sample_runtime one
              (sees bare_snapshot "12:00:00") (initial_state "status.json")
              [("current_iteration", JInt 100)] eq_refl eq_refl))
           (JInt 100) "progress_percentage");
    reflexivity.
Defined.

(** Against C10 as stated: with [last_iteration] at 250, the pass over an
    object whose [current_iteration] is 100 and which lacks
    [progress_percentage] moves [last_iteration] down to 100 and prints
    the missing-key notice, and no status line. *)
Lemma backward_iteration_without_line :
  iteration sample_runtime one (sees bare_snapshot "12:00:00") seen_250
  = (Ok true,
     {| last_iteration := JInt 100;
        stdout := [missing_key_notice "progress_percentage"] |}).
Proof. vm_compute. reflexivity. Qed.

Lemma change_detection_witness :
  valid_snapshot (scenario_snapshot "training" []) = true /\
  py_eq (JInt 100) (last_iteration (initial_state "status.json")) = false /\
  exists line s,
    render sample_runtime "12:00:00" (scenario_snapshot "training" [])
      (JInt 100) = Ok (line, JStr s) /\
    last_iteration
      (snd (iteration sample_runtime one
              (sees (scenario_snapshot "training" []) "12:00:00")
              (initial_state "status.json"))) = JInt 100 /\
    stdout
      (snd (iteration sample_runtime one
              (sees (scenario_snapshot "training" []) "12:00:00")
              (initial_state "status.json")))
    = (stdout (initial_state "status.json")
       ++ line :: terminal_notices sample_runtime
                    (scenario_items "training" []) s)%list /\
    (terminal s = false ->
     stdout
       (snd (iteration sample_runtime one
               (sees (scenario_snapshot "training" []) "12:00:00")
               (initial_state "status.json")))
     = (stdout (initial_state "status.json") ++ [line])%list).
Proof.
  split; [reflexivity|]. split; [reflexivity|].
  apply (proj2 (change_detection sample_runtime one
                  (sees (scenario_snapshot "training" []) "12:00:00")
                  (initial_state "status.json")
                  (scenario_items "training" []) (JInt 100)
                  eq_refl eq_refl eq_refl));
    reflexivity.
Defined.

(** Against C9 as stated: with an interval of zero the monitor enters the
    loop, reports the snapshot and keeps polling; with an interval of minus
    one it enters the loop and reports the snapshot before the sleep
    raises. *)
Lemma nonpositive_interval_enters_loop :
  monitor_training_progress sample_runtime "status.json" zero
    [sees (scenario_snapshot "training" []) "12:00:00"]
  = (Polling,
     {| last_iteration := JInt 100;
        stdout := header "status.json"
                  ++ ["[12:00:00" ++ scenario_text "training"] |})
  /\ monitor_training_progress sample_runtime "status.json" minus_one
       [sees (scenario_snapshot "training" []) "12:00:00"]
     = (Uncaught ValueError,
        {| last_iteration := JInt 100;
           stdout := header "status.json"
                     ++ ["[12:00:00" ++ scenario_text "training"] |}).
Proof. split; vm_compute; reflexivity. Qed.

Lemma interval_not_validated_witness :
  interrupt (sees (scenario_snapshot "training" []) "12:00:00") = false /\
  snd (monitor_training_progress sample_runtime "status.json" minus_one
         [sees (scenario_snapshot "training" []) "12:00:00"])
  = snd (monitor_training_progress sample_runtime "status.json" one
           [sees (scenario_snapshot "training" []) "12:00:00"]).
Proof.
  split; [reflexivity|].
  apply (proj1 (interval_not_validated sample_runtime "status.json" minus_one
                  (sees (scenario_snapshot "training" []) "12:00:00")
                  eq_refl)).
Defined.

(** ** Runs over a world *)

Local Open Scope list_scope.

Section Runs.

Variable rt : runtime.

Lemma time_sleep_accepted (i : spec_float) (b : bool) :
  time_sleep i false = Ok tt ->
  time_sleep i b = if b then Raise KeyboardInterrupt else Ok tt.
Proof.
  destruct b; trivial. unfold time_sleep.
  destruct i as [s|s| |s m e]; try discriminate;
    match goal with |- context [if ?c then _ else _] => destruct c end;
    try discriminate; trivial.
  destruct s; [discriminate | trivial].
Qed.

Lemma check_completed_prints (status train_status : json) (st : mstate) :
  exists more,
    stdout (snd (check_completed rt status train_status st))
    = stdout st ++ more /\
    (List.length more <= 2)%nat /\
    (forall e, fst (check_completed rt status train_status st) = Raise e ->
               (List.length more <= 1)%nat).
Proof.
  unfold check_completed.
  destruct (py_eq train_status (JStr "completed")).
  - unfold bind, print, lift, ret. simpl.
    destruct (get status "current_export_file") as [f|e0]; simpl.
    + destruct (truthy f); simpl.
      * destruct (subscript status "export_path") as [p|e1]; simpl.
        -- destruct (subscript status "current_export_file") as [x|e2]; simpl.
           ++ eexists. rewrite <- app_assoc. split; [reflexivity|].
              simpl. split; [lia | discriminate].
           ++ eexists. split; [reflexivity|]. simpl. split; intros; lia.
        -- eexists. split; [reflexivity|]. simpl. split; intros; lia.
      * eexists. split; [reflexivity|]. simpl. split; intros; lia.
    + eexists. split; [reflexivity|]. simpl. split; intros; lia.
  - destruct (py_eq train_status (JStr "error")); simpl.
    + eexists. split; [reflexivity|]. simpl. split; intros; lia.
    + exists []. rewrite app_nil_r. simpl. split; [reflexivity|].
      split; intros; lia.
Qed.

Lemma handlers_prints (e : exn) (st : mstate) :
  exists more,
    stdout (snd (handlers e st)) = stdout st ++ more /\ (List.length more <= 1)%nat.
Proof.
  destruct e; simpl;
    try (exists []; rewrite app_nil_r; simpl; split; [reflexivity | lia]);
    eexists; (split; [reflexivity | simpl; lia]).
Qed.

(** What a pass adds to the output is settled before the sleep. *)
Lemma iteration_stdout (i : spec_float) (w : poll) (st : mstate) :
  stdout (snd (iteration rt i w st)) =
    match try_body rt i w st with
    | (Raise e, st') => stdout (snd (handlers e st'))
    | (_, st') => stdout st'
    end.
Proof.
  unfold iteration.
  destruct (try_body rt i w st) as [[f|e] st']; simpl.
  - destruct f; trivial. unfold bind, lift, ret.
    destruct (time_sleep i (interrupt w)); reflexivity.
  - destruct (handlers e st') as [[f|e'] st'']; simpl; trivial.
    destruct f; trivial. unfold bind, lift, ret.
    destruct (time_sleep i (interrupt w)); trivial.
Qed.

Lemma try_body_prints (i : spec_float) (w : poll) (st : mstate) :
  exists more,
    stdout (snd (try_body rt i w st)) = stdout st ++ more /\
    (List.length more <= 3)%nat /\
    (forall e, fst (try_body rt i w st) = Raise e -> (List.length more <= 2)%nat).
Proof.
  destruct (file w) as [|e0|status] eqn:Hf.
  - unfold try_body. rewrite Hf. unfold bind, print, lift, ret. simpl.
    destruct (time_sleep i (interrupt w)); simpl;
      eexists; (split; [reflexivity|]); simpl; split; intros; lia.
  - unfold try_body. rewrite Hf. simpl. exists []. rewrite app_nil_r.
    simpl. split; [reflexivity|]. split; intros; lia.
  - destruct (subscript status "current_iteration") as [c|e] eqn:Hc.
    + destruct (py_eq c (last_iteration st)) eqn:E.
      * rewrite try_body_unchanged with (status := status) (c := c); trivial.
        exists []. rewrite app_nil_r. simpl. split; [reflexivity|].
        split; intros; lia.
      * rewrite try_body_changed with (status := status) (c := c); trivial.
        destruct (render rt (now w) status c) as [[line ts]|e].
        -- destruct (check_completed_prints status ts
                       {| last_iteration := c; stdout := stdout st ++ [line] |})
             as [more [Hm [Hl He]]].
           exists (line :: more). rewrite Hm. simpl stdout.
           rewrite <- app_assoc. split; [reflexivity|]. simpl.
           split; [lia|]. intros e Hr. specialize (He e Hr). lia.
        -- exists []. rewrite app_nil_r. simpl. split; [reflexivity|].
           split; intros; lia.
    + unfold try_body. rewrite Hf. unfold bind, lift. rewrite Hc. simpl.
      exists []. rewrite app_nil_r. simpl. split; [reflexivity|].
      split; intros; lia.
Qed.

Lemma iteration_prints (i : spec_float) (w : poll) (st : mstate) :
  exists more,
    stdout (snd (iteration rt i w st)) = stdout st ++ more /\
    (List.length more <= 3)%nat.
Proof.
  rewrite iteration_stdout.
  destruct (try_body_prints i w st) as [more [Hm [Hl He]]].
  destruct (try_body rt i w st) as [[f|e] st']; simpl in *.
  - exists more. auto.
  - destruct (handlers_prints e st') as [more' [Hm' Hl']].
    exists (more ++ more'). rewrite Hm', Hm, app_assoc.
    split; [reflexivity|]. rewrite List.length_app.
    specialize (He e eq_refl). lia.
Qed.

Lemma while_true_prints (i : spec_float) (world : list poll) (st : mstate) :
  exists more,
    stdout (snd (while_true rt i world st)) = stdout st ++ more /\
    (List.length more <= 3 * List.length world)%nat.
Proof.
  revert st. induction world as [|w world IH]; intros st.
  - exists []. rewrite app_nil_r. simpl. split; [reflexivity | lia].
  - rewrite while_true_cons.
    destruct (iteration_prints i w st) as [more [Hm Hl]].
    destruct (iteration rt i w st) as [[[]|e] st'] eqn:Hi; simpl in Hm.
    + destruct (IH st') as [more' [Hm' Hl']].
      exists (more ++ more'). rewrite Hm', Hm, app_assoc.
      split; [reflexivity|]. rewrite List.length_app. simpl List.length. lia.
    + exists more. simpl. split; [assumption | simpl List.length; lia].
    + exists more. simpl. split; [assumption | simpl List.length; lia].
Qed.

Lemma while_true_app (i : spec_float) (w1 w2 : list poll) (st : mstate) :
  while_true rt i (w1 ++ w2) st =
    match while_true rt i w1 st with
    | (Ok true, st') => while_true rt i w2 st'
    | stop => stop
    end.
Proof.
  revert st. induction w1 as [|w w1 IH]; intros st; [reflexivity|].
  simpl app. rewrite !while_true_cons.
  destruct (iteration rt i w st) as [[[]|e] st']; trivial.
Qed.




Lemma py_eq_str (v : json) (s : string) :
  py_eq v (JStr s) = true -> v = JStr s.
Proof.
  destruct v; simpl; try discriminate.
  intros H. apply String.eqb_eq in H. now subst.
Qed.

Lemma check_completed_break (status train_status : json) (st st' : mstate) :
  check_completed rt status train_status st = (Ok Break, st') ->
  (train_status = JStr "completed" \/ train_status = JStr "error") /\
  last_iteration st' = last_iteration st /\
  exists notices, stdout st' = stdout st ++ notices.
Proof.
  intros H.
  pose proof (check_completed_last rt status train_status st) as Hl.
  destruct (check_completed_prints status train_status st) as [more [Hm _]].
  rewrite H in Hl, Hm. simpl in Hl, Hm.
  refine (conj _ (conj Hl (ex_intro _ more Hm))).
  unfold check_completed in H.
  destruct (py_eq train_status (JStr "completed")) eqn:E1.
  - left. now apply py_eq_str.
  - destruct (py_eq train_status (JStr "error")) eqn:E2.
    + right. now apply py_eq_str.
    + discriminate.
Qed.

(** X2.  The loop is left by [break] only on a terminal status: if a pass
    ends the loop normally, then it read a snapshot whose
    [current_iteration] differed from [last_iteration], printed its status
    line, and the snapshot's [status] was exactly [completed] or
    [error]. *)
Theorem break_only_on_terminal_status (i : spec_float) (w : poll)
    (st st' : mstate) :
  iteration rt i w st = (Ok false, st') ->
  exists status c line train_status notices,
    file w = Loaded status /\
    subscript status "current_iteration" = Ok c /\
    py_eq c (last_iteration st) = false /\
    render rt (now w) status c = Ok (line, train_status) /\
    (train_status = JStr "completed" \/ train_status = JStr "error") /\
    last_iteration st' = c /\
    stdout st' = stdout st ++ line :: notices.
Proof.
  intros H.
  assert (Hb : try_body rt i w st = (Ok Break, st')).
  { unfold iteration in H.
    destruct (try_body rt i w st) as [[f|e] st1].
    - destruct f; simpl in H.
      + unfold bind, lift, ret in H.
        destruct (time_sleep i (interrupt w)); discriminate.
      + discriminate.
      + now inversion H.
    - destruct e; simpl in H; unfold bind, print, lift, ret in H; simpl in H;
        try discriminate;
        destruct (time_sleep i (interrupt w)); discriminate. }
  clear H.
  destruct (file w) as [|e0|status] eqn:Hf.
  - unfold try_body in Hb. rewrite Hf in Hb.
    unfold bind, print, lift, ret in Hb. simpl in Hb.
    destruct (time_sleep i (interrupt w)); discriminate.
  - unfold try_body in Hb. rewrite Hf in Hb. discriminate.
  - destruct (subscript status "current_iteration") as [c|e] eqn:Hc.
    + destruct (py_eq c (last_iteration st)) eqn:E.
      * rewrite try_body_unchanged with (status := status) (c := c) in Hb;
          trivial. discriminate.
      * rewrite try_body_changed with (status := status) (c := c) in Hb;
          trivial.
        destruct (render rt (now w) status c) as [[line ts]|e] eqn:Hr;
          [|discriminate].
        apply check_completed_break in Hb.
        destruct Hb as [Ht [Hl [notices Hn]]]. simpl in Hl, Hn.
        exists status, c, line, ts, notices.
        rewrite <- app_assoc in Hn. auto 10.
    + unfold try_body in Hb. rewrite Hf in Hb. unfold bind, lift in Hb.
      rewrite Hc in Hb. discriminate.
Qed.

(** X3.  Each pass through the loop calls [print] at most three times:
    after a run over [n] passes the output is the two header lines
    followed by at most [3 n + 1] entries, the one being the notice of a
    stop by the user. *)
Theorem at_most_three_prints_per_pass (status_file : string) (i : spec_float)
    (world : list poll) :
  exists out,
    stdout (snd (monitor_training_progress rt status_file i world))
    = header status_file ++ out /\
    (List.length out <= 3 * List.length world + 1)%nat.
Proof.
  rewrite monitor_unfold.
  destruct (while_true_prints i world (initial_state status_file))
    as [more [Hm Hl]].
  destruct (while_true rt i world (initial_state status_file))
    as [[[]|e] st];
    change (stdout st = header status_file ++ more) in Hm.
  - exists more. split; [assumption | lia].
  - exists more. split; [assumption | lia].
  - destruct e; try (exists more; split; [assumption | lia]).
    exists (more ++ [stop_notice]). cbn [snd stdout].
    rewrite Hm, <- app_assoc.
    split; [reflexivity|]. rewrite List.length_app. simpl List.length. lia.
Qed.

Lemma iteration_anomaly (i : spec_float) (w : poll) (st : mstate)
    (line : string) :
  time_sleep i false = Ok tt ->
  interrupt w = false ->
  anomaly_notice (file w) = Some line ->
  iteration rt i w st
  = (Ok true, {| last_iteration := last_iteration st;
                 stdout := stdout st ++ [line] |}).
Proof.
  intros Hs Hi Ha. unfold iteration, try_body.
  destruct (file w) as [|e|status]; simpl in Ha.
  - inversion Ha; subst. unfold bind, print, lift, ret. simpl.
    rewrite Hi, Hs. reflexivity.
  - destruct e; try discriminate; inversion Ha; subst;
      unfold handlers, bind, print, lift, ret; simpl;
      rewrite Hi, Hs; reflexivity.
  - discriminate.
Qed.

(** X5.  However long the artifact stays absent, vanishes before it is
    opened, or fails to parse, every pass prints exactly one notice, that
    of its anomaly, [last_iteration] keeps its value, and the loop keeps
    polling; a monitor that only ever meets such passes prints its header
    and one notice per pass. *)
Theorem unreadable_artifact_costs_one_notice (status_file : string)
    (i : spec_float) (world : list poll) (st : mstate) :
  time_sleep i false = Ok tt ->
  Forall (fun w => interrupt w = false /\ anomaly_notice (file w) <> None)
    world ->
  while_true rt i world st
  = (Ok true, {| last_iteration := last_iteration st;
                 stdout := stdout st ++ anomaly_notices world |}) /\
  List.length (anomaly_notices world) = List.length world /\
  monitor_training_progress rt status_file i world
  = (Polling, {| last_iteration := JInt (-1);
                 stdout := header status_file ++ anomaly_notices world |}).
Proof.
  intros Hs Hw.
  assert (H : forall st,
             while_true rt i world st
             = (Ok true, {| last_iteration := last_iteration st;
                            stdout := stdout st ++ anomaly_notices world |})
             /\ List.length (anomaly_notices world) = List.length world).
  { induction Hw as [|w world [Hi Ha] _ IH]; intros st0.
    - simpl. rewrite app_nil_r. destruct st0; auto.
    - destruct (anomaly_notice (file w)) as [line|] eqn:E; [|now elim Ha].
      rewrite while_true_cons.
      rewrite (iteration_anomaly i w st0 line Hs Hi E).
      destruct (IH {| last_iteration := last_iteration st0;
                      stdout := stdout st0 ++ [line] |}) as [IH1 IH2].
      rewrite IH1. unfold anomaly_notices in *. simpl flat_map. rewrite E.
      simpl. rewrite <- app_assoc. simpl. auto. }
  destruct (H st) as [H1 H2]. refine (conj H1 (conj H2 _)).
  rewrite monitor_unfold. now rewrite (proj1 (H (initial_state status_file))).
Qed.

(** X6.  While [current_iteration] stays at the value last reported,
    nothing is printed and the loop keeps polling, whatever else the
    snapshots say: no other field is read, so neither a terminal status
    nor a missing or ill-typed field is noticed. *)
Theorem unchanged_iteration_is_silent (i : spec_float) (world : list poll)
    (st : mstate) :
  time_sleep i false = Ok tt ->
  Forall (fun w =>
            interrupt w = false /\
            exists c, iteration_of w = Some c /\
                      py_eq c (last_iteration st) = true) world ->
  while_true rt i world st = (Ok true, st).
Proof.
  intros Hs Hw. induction Hw as [|w world [Hi [c [Hc E]]] _ IH]; trivial.
  rewrite while_true_cons.
  unfold iteration_of in Hc.
  destruct (file w) as [| |status] eqn:Hf; try discriminate.
  destruct (subscript status "current_iteration") as [c'|] eqn:Hc';
    [|discriminate].
  inversion Hc; subst c'.
  rewrite (iteration_fallthrough rt i w st st
             (try_body_unchanged rt i w st status c Hf Hc' E)).
  rewrite Hi, Hs. exact IH.
Qed.

Lemma try_body_no_continue (i : spec_float) (w : poll) (st : mstate) :
  file w <> Absent -> fst (try_body rt i w st) <> Ok Continue.
Proof.
  intros Hn. destruct (file w) as [|e0|status] eqn:Hf; [now elim Hn| |].
  - unfold try_body. rewrite Hf. discriminate.
  - destruct (subscript status "current_iteration") as [c|e] eqn:Hc.
    + destruct (py_eq c (last_iteration st)) eqn:E.
      * rewrite try_body_unchanged with (status := status) (c := c);
          trivial. discriminate.
      * rewrite try_body_changed with (status := status) (c := c); trivial.
        destruct (render rt (now w) status c) as [[line ts]|e];
          [apply check_completed_flow | discriminate].
    + unfold try_body. rewrite Hf. unfold bind, lift. rewrite Hc.
      discriminate.
Qed.

(** A pass that goes round again when its sleep is left alone is cut
    short by Ctrl+C in the same state. *)
Lemma iteration_interrupted (i : spec_float) (w : poll) (st st' : mstate) :
  time_sleep i false = Ok tt ->
  interrupt w = true ->
  iteration rt i {| file := file w; now := now w; interrupt := false |} st
  = (Ok true, st') ->
  iteration rt i w st = (Raise KeyboardInterrupt, st').
Proof.
  intros Hs Hi H.
  pose proof (time_sleep_accepted i true Hs) as Hk. simpl in Hk.
  destruct (file w) as [|e0|status] eqn:Hf.
  - unfold iteration, try_body in *. simpl file in H. rewrite Hf in *.
    unfold bind, print, lift, ret in *. simpl in *.
    rewrite Hs in H. rewrite Hi, Hk. simpl. now inversion H.
  - unfold iteration, try_body in *. simpl file in H. rewrite Hf in *.
    simpl interrupt in H. rewrite Hi.
    destruct e0; simpl in *; unfold bind, print, lift, ret in *; simpl in *;
      try discriminate; rewrite Hs in H; rewrite Hk; now inversion H.
  - assert (Ht : try_body rt i
                   {| file := Loaded status; now := now w;
                      interrupt := false |} st
                 = try_body rt i w st).
    { unfold try_body. simpl. now rewrite Hf. }
    assert (Hn : fst (try_body rt i w st) <> Ok Continue).
    { apply try_body_no_continue. rewrite Hf. discriminate. }
    unfold iteration in *. rewrite Ht in H. simpl interrupt in H.
    rewrite Hi.
    destruct (try_body rt i w st) as [[f|e] st1].
    + destruct f; simpl in *.
      * unfold bind, lift, ret in *. rewrite Hs in H. rewrite Hk.
        now inversion H.
      * now elim Hn.
      * discriminate.
    + destruct e; simpl in *; unfold bind, print, lift, ret in *; simpl in *;
        try discriminate; rewrite Hs in H; rewrite Hk; now inversion H.
Qed.

(** X7.  Ctrl+C during the sleep of a pass ends the run in an orderly way:
    what the pass printed stays, the notice of the stop is the last thing
    printed, the function returns, and the polls that the world would
    still offer are not made. *)
Theorem interrupt_ends_run (status_file : string) (i : spec_float)
    (before after : list poll) (w : poll) (st st' : mstate) :
  time_sleep i false = Ok tt ->
  while_true rt i before (initial_state status_file) = (Ok true, st) ->
  interrupt w = true ->
  iteration rt i {| file := file w; now := now w; interrupt := false |} st
  = (Ok true, st') ->
  monitor_training_progress rt status_file i (before ++ w :: after)
  = (Returned, {| last_iteration := last_iteration st';
                  stdout := stdout st' ++ [stop_notice] |}).
Proof.
  intros Hs Hb Hi H.
  rewrite monitor_unfold, while_true_app, Hb, while_true_cons.
  now rewrite (iteration_interrupted i w st st' Hs Hi H).
Qed.

Lemma iteration_last_cases (i : spec_float) (w : poll) (st : mstate) :
  last_iteration (snd (iteration rt i w st)) = last_iteration st
  \/ iteration_of w = Some (last_iteration (snd (iteration rt i w st))).
Proof.
  rewrite (iteration_last rt). unfold iteration_of.
  destruct (file w) as [|e0|status] eqn:Hf.
  - left. unfold try_body. rewrite Hf. unfold bind, print, lift, ret. simpl.
    destruct (time_sleep i (interrupt w)); reflexivity.
  - left. unfold try_body. now rewrite Hf.
  - destruct (subscript status "current_iteration") as [c|e] eqn:Hc.
    + destruct (py_eq c (last_iteration st)) eqn:E.
      * left.
        now rewrite try_body_unchanged with (status := status) (c := c).
      * right.
        rewrite try_body_changed with (status := status) (c := c); trivial.
        destruct (render rt (now w) status c) as [[line ts]|e]; trivial.
        now rewrite (check_completed_last rt).
    + left. unfold try_body. rewrite Hf. unfold bind, lift. now rewrite Hc.
Qed.

(** X8.  [last_iteration] only ever holds a value that was read: after any
    run it is the initial -1 or the [current_iteration] of a snapshot that
    one of the passes loaded. *)
Theorem last_iteration_was_read (status_file : string) (i : spec_float)
    (world : list poll) :
  let final := last_iteration
                 (snd (monitor_training_progress rt status_file i world)) in
  final = JInt (-1)
  \/ exists w, In w world /\ iteration_of w = Some final.
Proof.
  assert (H : forall world st,
             last_iteration (snd (while_true rt i world st))
             = last_iteration st
             \/ exists w, In w world /\
                  iteration_of w
                  = Some (last_iteration (snd (while_true rt i world st)))).
  { clear world. induction world as [|w world IH]; intros st; [now left|].
    rewrite while_true_cons.
    pose proof (iteration_last_cases i w st) as Hw.
    destruct (iteration rt i w st) as [[[]|e] st1]; simpl in Hw.
    - destruct (IH st1) as [E | [w' [Hin E]]].
      + rewrite E. destruct Hw as [Hw|Hw]; [now left|].
        right. exists w. split; [now left | assumption].
      + right. exists w'. split; [now right | assumption].
    - simpl. destruct Hw as [Hw|Hw]; [now left|].
      right. exists w. split; [now left | assumption].
    - simpl. destruct Hw as [Hw|Hw]; [now left|].
      right. exists w. split; [now left | assumption]. }
  intros final. subst final. rewrite monitor_unfold.
  specialize (H world (initial_state status_file)).
  destruct (while_true rt i world (initial_state status_file))
    as [[[]|e] st]; simpl in H; try exact H.
  destruct e; exact H.
Qed.



(** C10, as the code has it.  The comparison is an inequality test, not
    an order: when the [current_iteration] of a parsed snapshot is
    strictly below [last_iteration], the pass moves [last_iteration] down
    to the smaller value; it prints the status line, before anything
    else, whenever the line can be built from the snapshot; and the line
    can be built from every snapshot with all the fields the monitor
    reads, whose two metrics are both floats or both null or absent. *)
Theorem backward_iteration_reported (i : spec_float) (w : poll)
    (st : mstate) (status : json) (c l : Z) :
  file w = Loaded status ->
  subscript status "current_iteration" = Ok (JInt c) ->
  last_iteration st = JInt l ->
  c < l ->
  last_iteration (snd (iteration rt i w st)) = JInt c /\
  (forall line train_status,
     render rt (now w) status (JInt c) = Ok (line, train_status) ->
     exists notices,
       stdout (snd (iteration rt i w st))
       = (stdout st ++ line :: notices)%list) /\
  (valid_snapshot status = true ->
   exists items line s,
     status = JDict items /\
     render rt (now w) status (JInt c) = Ok (line, JStr s) /\
     stdout (snd (iteration rt i w st))
     = (stdout st ++ line :: terminal_notices rt items s)%list).
Proof.
  intros Hf Hc Hl Hlt.
  assert (E : py_eq (JInt c) (last_iteration st) = false).
  { rewrite Hl. simpl. apply Z.eqb_neq. lia. }
  refine (conj _ (conj _ _)).
  - now apply iteration_last_changed with (status := status).
  - intros line ts Hr. rewrite iteration_stdout.
    rewrite try_body_changed with (status := status) (c := JInt c); trivial.
    rewrite Hr.
    destruct (check_completed_prints status ts
                {| last_iteration := JInt c; stdout := stdout st ++ [line] |})
      as [more [Hm _]].
    destruct (check_completed rt status ts _) as [[f|e] st1];
      simpl in Hm.
    + exists more. rewrite Hm, <- app_assoc. reflexivity.
    + destruct (handlers_prints e st1) as [more' [Hm' _]].
      exists (more ++ more'). rewrite Hm', Hm, <- !app_assoc. reflexivity.
  - intros Hv. destruct status as [| | | | | |items]; try discriminate.
    destruct (try_body_valid rt i w st items Hf Hv)
      as [n [s [line [Hn [Hs [Hr Hb]]]]]].
    simpl in Hc. rewrite Hn in Hc. injection Hc as ->.
    rewrite E in Hb. apply iteration_state in Hb. rewrite Hb. simpl.
    exists items, line, s. auto.
Qed.

End Runs.

Local Open Scope string_scope.
Local Open Scope Z_scope.

Lemma backward_iteration_reported_witness :
  100 < 250 /\
  valid_snapshot (scenario_snapshot "training" []) = true /\
  last_iteration
    (snd (iteration sample_runtime one
            (sees (scenario_snapshot "training" []) "12:00:00") seen_250))
  = JInt 100 /\
  exists items line s,
    scenario_snapshot "training" [] = JDict items /\
    render sample_runtime "12:00:00" (scenario_snapshot "training" [])
      (JInt 100) = Ok (line, JStr s) /\
    stdout
      (snd (iteration sample_runtime one
              (sees (scenario_snapshot "training" []) "12:00:00") seen_250))
    = (stdout seen_250 ++ line :: terminal_notices sample_runtime items s)%list.
Proof.
  split; [lia|]. split; [reflexivity|].
  destruct (backward_iteration_reported sample_runtime one
              (sees (scenario_snapshot "training" []) "12:00:00") seen_250
              (scenario_snapshot "training" []) 100 250
              eq_refl eq_refl eq_refl eq_refl) as [H1 [_ H2]].
  split; [exact H1 | exact (H2 eq_refl)].
Defined.

(** ** Standard output that may refuse a line *)

(** On a standard output that takes every line, the monitor of [Stream]
    is the monitor above. *)
Lemma stream_iteration_writes_all (rt : runtime) (i : spec_float) (w : poll)
    (st : mstate) :
  Stream.iteration rt (fun _ => Ok tt) i w st = iteration rt i w st.
Proof. reflexivity. Qed.

Lemma stream_while_true_writes_all (rt : runtime) (i : spec_float)
    (world : list poll) (st : mstate) :
  Stream.while_true rt (fun _ => Ok tt) i world st = while_true rt i world st.
Proof.
  revert st. induction world as [|w world IH]; intros st; [reflexivity|].
  simpl. rewrite stream_iteration_writes_all.
  destruct (iteration rt i w st) as [[[]|e] st']; trivial.
Qed.

Lemma stream_monitor_writes_all (rt : runtime) (status_file : string)
    (i : spec_float) (world : list poll) :
  Stream.monitor_training_progress rt (fun _ => Ok tt) status_file i world
  = monitor_training_progress rt status_file i world.
Proof.
  unfold Stream.monitor_training_progress, monitor_training_progress.
  unfold bind, Stream.print. cbv beta iota. cbn [last_iteration stdout app].
  rewrite stream_while_true_writes_all.
  destruct (while_true rt i world _) as [[[]|e] st]; reflexivity.
Qed.

Section StreamProperties.

Variable rt : runtime.
Variable write : string -> res unit.

Lemma stream_check_completed_absorbed (items : list (string * json))
    (s : string) (st : mstate) :
  absorbed write (fst (Stream.check_completed rt write (JDict items) (JStr s) st)).
Proof.
  unfold absorbed, Stream.check_completed. simpl.
  destruct (String.eqb s "completed"); simpl.
  - unfold bind, Stream.print, lift, ret.
    match goal with |- context [write ?l] =>
      destruct (write l) as [u|e] eqn:E1; simpl; [|right; now exists l]
    end.
    destruct (lookup "current_export_file" items) as [f|]; simpl; trivial.
    destruct (truthy f); simpl; trivial.
    destruct (lookup "export_path" items) as [p|]; simpl; [|left; eauto].
    match goal with |- context [write ?l] =>
      destruct (write l) as [u'|e] eqn:E2; simpl; [trivial|right; now exists l]
    end.
  - destruct (String.eqb s "error"); simpl; trivial.
    unfold bind, Stream.print, ret.
    match goal with |- context [write ?l] =>
      destruct (write l) as [u|e] eqn:E1; simpl; [trivial|right; now exists l]
    end.
Qed.

Lemma stream_try_body_absorbed (i : spec_float) (w : poll) (st : mstate)
    (status : json) :
  file w = Loaded status ->
  typed_snapshot status = true ->
  absorbed write (fst (Stream.try_body rt write i w st)).
Proof.
  intros Hf Ht. destruct status; try discriminate.
  unfold absorbed, Stream.try_body. rewrite Hf.
  unfold bind, lift, read_last, write_last.
  simpl.
  destruct (lookup "current_iteration" items) as [c|]; simpl; [|left; eauto].
  destruct (py_eq c (last_iteration st)); simpl; trivial.
  pose proof (render_typed rt items (now w) c Ht) as Hr.
  destruct (first_missing items) as [k|].
  - rewrite Hr. simpl. left; eauto.
  - destruct Hr as [[line [s [_ Hr]]]|Hr]; rewrite Hr; simpl; [|left; eauto].
    unfold Stream.print.
    destruct (write line) as [u|e] eqn:E; simpl; [|right; now exists line].
    apply (stream_check_completed_absorbed items s).
Qed.

(** What becomes of a pass whose [try] body ends normally, with an
    exception that a handler takes, or with one from [print] or from the
    sleep. *)
Lemma stream_iteration_outcome (i : spec_float) (w : poll) (st : mstate) :
  match fst (Stream.try_body rt write i w st) with
  | Ok _ => True
  | Raise e => handled e = true \/ raised_by write e
               \/ time_sleep i (interrupt w) = Raise e
  end ->
  (exists b st', Stream.iteration rt write i w st = (Ok b, st'))
  \/ exists e st',
       Stream.iteration rt write i w st = (Raise e, st')
       /\ (raised_by write e \/ time_sleep i (interrupt w) = Raise e).
Proof.
  intros H. unfold Stream.iteration.
  assert (Hfall : forall st1,
            (exists b st', (lift (time_sleep i (interrupt w)) ;;; ret true) st1
                           = (Ok b, st'))
            \/ exists e st',
                 (lift (time_sleep i (interrupt w)) ;;; ret true) st1
                 = (Raise e, st')
                 /\ (raised_by write e \/ time_sleep i (interrupt w) = Raise e)).
  { intros st1. unfold bind, lift, ret.
    destruct (time_sleep i (interrupt w)) as [u|e]; [left|right]; eauto. }
  assert (Hprint : forall line st1,
            (exists b st',
               match (Stream.print write line ;;; ret Fallthrough) st1 with
               | (Ok Fallthrough, st') =>
                   (lift (time_sleep i (interrupt w)) ;;; ret true) st'
               | (Ok Continue, st') => (Ok true, st')
               | (Ok Break, st') => (Ok false, st')
               | (Raise e, st') => (Raise e, st')
               end = (Ok b, st'))
            \/ exists e st',
                 match (Stream.print write line ;;; ret Fallthrough) st1 with
                 | (Ok Fallthrough, st') =>
                     (lift (time_sleep i (interrupt w)) ;;; ret true) st'
                 | (Ok Continue, st') => (Ok true, st')
                 | (Ok Break, st') => (Ok false, st')
                 | (Raise e, st') => (Raise e, st')
                 end = (Raise e, st')
                 /\ (raised_by write e
                     \/ time_sleep i (interrupt w) = Raise e)).
  { intros line st1. unfold bind at 1 3. unfold Stream.print, ret at 1 3.
    destruct (write line) as [u|e] eqn:E.
    - apply Hfall.
    - right. exists e, st1. split; [reflexivity|]. left. now exists line. }
  destruct (Stream.try_body rt write i w st) as [[f|e] st1]; simpl in H.
  - destruct f; [apply Hfall | left; eauto | left; eauto].
  - destruct e;
      try (apply Hprint);
      try (right; eexists; eexists; split; [reflexivity|];
           destruct H as [Hh|[Hr|Hs]];
           [discriminate | now left | now right]).
Qed.

Lemma absorbed_handled (A : Type) (r : res A) :
  absorbed write r ->
  match r with
  | Ok _ => True
  | Raise e => handled e = true \/ raised_by write e
  end.
Proof.
  destruct r as [a|e]; trivial. intros [[k ->]|H]; [now left | now right].
Qed.

(** C2, as the code has it.  With a sleep that is neither refused nor
    interrupted: an absent artifact, one that vanished before it was
    opened, one that is not JSON, and a JSON object without
    [current_iteration] each make the pass print exactly one notice and
    go round again, when standard output takes the notice; and over a
    JSON object whose fields, where present, have their types, null
    optional fields included, the pass ends without an exception unless
    [print] itself raises one, on a line that standard output refuses. *)
Theorem anomalies_are_absorbed (i : spec_float) (w : poll) (st : mstate) :
  time_sleep i (interrupt w) = Ok tt ->
  let pass := Stream.iteration rt write i w st in
  let notice line :=
    (Ok true, {| last_iteration := last_iteration st;
                 stdout := stdout st ++ [line] |}) in
  (file w = Absent ->
   write "Status file not found, waiting for training to start..." = Ok tt ->
   pass = notice "Status file not found, waiting for training to start...") /\
  (file w = Unreadable FileNotFoundError ->
   write "Status file disappeared, waiting..." = Ok tt ->
   pass = notice "Status file disappeared, waiting...") /\
  (file w = Unreadable JSONDecodeError ->
   write "Status file corrupted, retrying..." = Ok tt ->
   pass = notice "Status file corrupted, retrying...") /\
  (forall items,
     file w = Loaded (JDict items) ->
     lookup "current_iteration" items = None ->
     write (missing_key_notice "current_iteration") = Ok tt ->
     pass = notice (missing_key_notice "current_iteration")) /\
  (forall status,
     file w = Loaded status ->
     typed_snapshot status = true ->
     (exists b st', pass = (Ok b, st'))
     \/ exists e st', pass = (Raise e, st') /\ raised_by write e).
Proof.
  intros Hs pass notice. subst pass notice.
  refine (conj _ (conj _ (conj _ (conj _ _)))).
  - intros Hf Hw. unfold Stream.iteration, Stream.try_body. rewrite Hf.
    unfold bind, lift, ret, Stream.print. rewrite Hw. simpl.
    rewrite Hs. reflexivity.
  - intros Hf Hw. unfold Stream.iteration, Stream.try_body. rewrite Hf.
    unfold Stream.handlers, bind, lift, ret, Stream.print. simpl.
    rewrite Hw. simpl. rewrite Hs. reflexivity.
  - intros Hf Hw. unfold Stream.iteration, Stream.try_body. rewrite Hf.
    unfold Stream.handlers, bind, lift, ret, Stream.print. simpl.
    rewrite Hw. simpl. rewrite Hs. reflexivity.
  - intros items Hf Hc Hw. unfold Stream.iteration, Stream.try_body.
    rewrite Hf. unfold Stream.handlers, bind, lift, ret, Stream.print. simpl.
    rewrite Hc. simpl. unfold missing_key_notice in Hw. simpl in Hw.
    rewrite Hw. simpl.
    rewrite Hs. reflexivity.
  - intros status Hf Ht.
    destruct (stream_iteration_outcome i w st) as [H|[e [st' [H [Hr|He]]]]].
    + pose proof (absorbed_handled _ _
                    (stream_try_body_absorbed i w st status Hf Ht)) as Ha.
      destruct (fst (Stream.try_body rt write i w st)); trivial.
      destruct Ha as [Ha|Ha]; auto.
    + now left.
    + right. eauto.
    + rewrite Hs in He. discriminate.
Qed.

(** *** Runs *)




End StreamProperties.

(** On the default standard output, the scenario snapshot whose status
    is a lone surrogate, which is a JSON object with every field of its
    type, ends the monitor with [UnicodeEncodeError] at the [print] of
    its status line. *)
Lemma unencodable_status_escapes :
  typed_snapshot surrogate_snapshot = true /\
  Stream.monitor_training_progress sample_runtime utf8_stdout "status.json"
    one [sees surrogate_snapshot "12:00:00"]
  = (Uncaught UnicodeEncodeError,
     {| last_iteration := JInt 100; stdout := header "status.json" |}).
Proof. split; vm_compute; reflexivity. Qed.

Lemma anomalies_are_absorbed_witness :
  time_sleep one false = Ok tt /\
  utf8_stdout "Status file corrupted, retrying..." = Ok tt /\
  Stream.iteration sample_runtime utf8_stdout one
    {| file := Unreadable JSONDecodeError; now := "12:00:00";
       interrupt := false |} seen_100
  = (Ok true,
     {| last_iteration := JInt 100;
        stdout := ["Status file corrupted, retrying..."] |}).
Proof.
  split; [reflexivity|]. split; [reflexivity|].
  exact (proj1 (proj2 (proj2
           (anomalies_are_absorbed sample_runtime utf8_stdout one
              {| file := Unreadable JSONDecodeError; now := "12:00:00";
                 interrupt := false |} seen_100 eq_refl)))
           eq_refl eq_refl).
Defined.


(** ** More on durations and on the status line *)

Lemma float_of_int_raises (n : Z) (e : exn) :
  float_of_int n = Raise e -> e = OverflowError.
Proof.
  unfold float_of_int. destruct (Float.of_Z n); intros H; now inversion H.
Qed.

Lemma int_true_div_raises (a b : Z) (e : exn) :
  int_true_div a b = Raise e -> e = OverflowError.
Proof.
  unfold int_true_div.
  destruct (Float.div (exact_int a) (exact_int b)); intros H;
    now inversion H.
Qed.

(** X11.  [format_duration] raises for two reasons only: [TypeError] on an
    argument that is not a number ([None], a string, a list, a dict), and
    that on every such argument; [OverflowError] on an int too large for a
    float.  On a float or a bool it always returns. *)
Theorem format_duration_errors (v : json) :
  (is_number v = false -> format_duration v = Raise TypeError) /\
  (forall e, format_duration v = Raise e ->
             (e = TypeError /\ is_number v = false)
             \/ (e = OverflowError /\ exists n, v = JInt n)).
Proof.
  split.
  - destruct v; try discriminate; reflexivity.
  - intros e. destruct v as [|b|n|f|s|l|items];
      try (intros H; inversion H; left; split; reflexivity).
    + destruct b; vm_compute; discriminate.
    + intros H. right. split; [|eauto].
      unfold format_duration, lt_int, true_div, format_spec_f in H.
      cbn [res_bind] in H.
      destruct (n <? 60).
      * destruct (float_of_int n) eqn:E; cbn [res_bind] in H;
          [discriminate|].
        inversion H; subst. now apply float_of_int_raises in E.
      * destruct (n <? 3600);
          match type of H with
          | context [int_true_div ?a ?b] =>
              destruct (int_true_div a b) eqn:E
          end; cbn [res_bind] in H; try discriminate;
          inversion H; subst; now apply int_true_div_raises in E.
    + destruct (format_duration_float_total f) as [s ->]. discriminate.
Qed.

Lemma format_duration_errors_witness :
  is_number (JStr "90") = false /\
  format_duration (JStr "90") = Raise TypeError.
Proof.
  split; [reflexivity|].
  apply (proj1 (format_duration_errors (JStr "90"))). reflexivity.
Defined.

Lemma same_text_ok (a b : res string) :
  same_text a b = true -> exists s, a = Ok s /\ b = Ok s.
Proof.
  destruct a as [x|], b as [y|]; try discriminate. simpl.
  intros H. apply String.eqb_eq in H. subst. eauto.
Qed.

Lemma ints_as_floats_spec (bound : nat) (n : Z) :
  ints_as_floats_below bound = true ->
  0 <= n < Z.of_nat bound ->
  same_text (format_duration (JInt n))
    (format_duration (JFloat (Float.of_Z n))) = true.
Proof.
  unfold ints_as_floats_below. intros H Hn. rewrite forallb_forall in H.
  specialize (H (Z.to_nat n)). rewrite Z2Nat.id in H by lia.
  apply H. apply in_seq. lia.
Qed.

Lemma ints_as_floats_checked : ints_as_floats_below 3600 = true.
Proof. vm_compute. reflexivity. Qed.

(** X12.  A duration written as an integer number of seconds below one
    hour is formatted exactly as the float of the same value: on every
    int from 0 to 3599 [format_duration] returns, and returns the text it
    returns on that float. *)
Theorem integer_durations_below_an_hour (n : Z) :
  0 <= n < 3600 ->
  exists s,
    format_duration (JInt n) = Ok s /\
    format_duration (JFloat (Float.of_Z n)) = Ok s.
Proof.
  intros Hn. apply same_text_ok.
  apply (ints_as_floats_spec 3600 n ints_as_floats_checked).
  change (Z.of_nat 3600) with 3600. exact Hn.
Qed.

Lemma integer_durations_below_an_hour_witness :
  0 <= 90 < 3600 /\
  exists s,
    format_duration (JInt 90) = Ok s /\
    format_duration (JFloat (Float.of_Z 90)) = Ok s.
Proof.
  split; [lia|]. apply (integer_durations_below_an_hour 90). lia.
Defined.

Section StatusLine.

Variable rt : runtime.


End StatusLine.

(** ** The feature test *)

Lemma starts_with_app (needle post : string) :
  starts_with needle (needle ++ post) = true.
Proof.
  induction needle as [|a needle IH]; simpl; trivial.
  now rewrite Ascii.eqb_refl, IH.
Qed.

Lemma containsb_complete (needle hay : string) :
  contains needle hay -> containsb needle hay = true.
Proof.
  intros [pre [post ->]]. induction pre as [|a pre IH].
  - change ("" ++ needle ++ post) with (needle ++ post).
    pose proof (starts_with_app needle post) as H.
    destruct (needle ++ post); simpl; rewrite H; reflexivity.
  - simpl. rewrite IH. apply orb_true_r.
Qed.

(** X14.  The command-line test passes exactly when the process exits
    with code 0 and its standard output contains both [--save-status] and
    [--status-filename]; a non-zero exit, a timeout or any other failure
    makes it fail.  Either way it prints two lines: the directory it
    announces and one verdict. *)
Theorem cli_test_passes_iff (temp_path : string)
    (r : TestStatusFeature.run_result) :
  (snd (TestStatusFeature.test_status_file_creation temp_path r) = true <->
   exists out err,
     r = TestStatusFeature.Completed 0 out err /\
     contains "--save-status" out /\ contains "--status-filename" out) /\
  exists verdict,
    fst (TestStatusFeature.test_status_file_creation temp_path r)
    = [("Testing status file creation in: " ++ temp_path)%string; verdict]%list.
Proof.
  unfold TestStatusFeature.test_status_file_creation. split.
  - split.
    + destruct r as [rc out err| |msg]; try discriminate.
      destruct (rc =? 0) eqn:Erc; [|discriminate].
      apply Z.eqb_eq in Erc. subst rc.
      destruct (containsb "--save-status" out) eqn:E1; [|discriminate].
      destruct (containsb "--status-filename" out) eqn:E2; [|discriminate].
      intros _. exists out, err.
      auto using containsb_sound.
    + intros [out [err [-> [H1 H2]]]]. simpl.
      now rewrite (containsb_complete _ _ H1), (containsb_complete _ _ H2).
  - destruct r as [rc out err| |msg];
      [destruct (rc =? 0);
       [destruct (containsb "--save-status" out
                  && containsb "--status-filename" out)|]| |];
      eexists; reflexivity.
Qed.

Lemma first_absent_none (fields : list string)
    (parsed : list (string * json)) :
  TestStatusFeature.first_absent fields parsed = None <->
  Forall (fun k => lookup k parsed <> None) fields.
Proof.
  induction fields as [|k fields IH]; simpl.
  - split; auto.
  - destruct (lookup k parsed) eqn:E.
    + rewrite IH. split.
      * intros H. constructor; [congruence | assumption].
      * intros H. now inversion H.
    + split; [discriminate|]. intros H. inversion H. congruence.
Qed.

Lemma first_absent_some (fields : list string)
    (parsed : list (string * json)) (k : string) :
  TestStatusFeature.first_absent fields parsed = Some k ->
  In k fields /\ lookup k parsed = None.
Proof.
  induction fields as [|f fields IH]; simpl; [discriminate|].
  destruct (lookup f parsed) eqn:E.
  - intros H. destruct (IH H). auto.
  - intros H. inversion H; subst. auto.
Qed.

(** X15.  The structure test passes exactly when the round trip through
    JSON succeeds and every one of the nine expected fields is a key of
    the object read back; when it fails for a field, the field it names is
    an expected one that the object lacks. *)
Theorem structure_test_passes_iff (d : TestStatusFeature.round_trip) :
  (snd (TestStatusFeature.test_status_file_structure d) = true <->
   exists text parsed,
     d = TestStatusFeature.Dumped text parsed /\
     Forall (fun k => lookup k parsed <> None)
       TestStatusFeature.expected_fields) /\
  (forall text parsed k,
     d = TestStatusFeature.Dumped text parsed ->
     TestStatusFeature.first_absent TestStatusFeature.expected_fields parsed
     = Some k ->
     TestStatusFeature.test_status_file_structure d
     = ([("❌ Missing expected field: " ++ k)%string]%list, false) /\
     In k TestStatusFeature.expected_fields /\ lookup k parsed = None).
Proof.
  unfold TestStatusFeature.test_status_file_structure. split.
  - split.
    + destruct d as [text parsed|msg]; [|discriminate].
      destruct (TestStatusFeature.first_absent _ parsed) eqn:E;
        [discriminate|].
      intros _. exists text, parsed. split; trivial.
      now apply first_absent_none.
    + intros [text [parsed [-> H]]].
      apply first_absent_none in H. now rewrite H.
  - intros text parsed k -> H. rewrite H. split; [reflexivity|].
    now apply first_absent_some in H.
Qed.

Lemma may_present (P : json -> bool) (o : option json) :
  may P o = true -> o <> None -> has P o = true.
Proof. destruct o; [trivial | intros _ H; now elim H]. Qed.

(** An object that has the nine expected fields of the structure test,
    whose fields have their types where present, and whose two metrics
    are both floats or both null or absent, has all that the monitor
    reads, [export_path] included. *)
Lemma expected_fields_valid (items : list (string * json)) :
  TestStatusFeature.first_absent TestStatusFeature.expected_fields items
  = None ->
  typed_snapshot (JDict items) = true ->
  match lookup "last_eval_psnr" items with
  | Some (JFloat _) => has is_float (lookup "last_eval_ssim" items)
  | _ => may (null_or is_float) (lookup "last_eval_ssim" items)
  end = true ->
  valid_snapshot (JDict items) = true.
Proof.
  intros Hf Ht Hm. apply first_absent_none in Hf.
  unfold TestStatusFeature.expected_fields in Hf.
  repeat match goal with
  | H : Forall _ (_ :: _) |- _ => inversion H; subst; clear H
  end.
  unfold typed_snapshot in Ht.
  repeat match goal with
  | H : _ && _ = true |- _ =>
      let H1 := fresh "T" in let H2 := fresh "T" in
      apply andb_prop in H; destruct H as [H1 H2]
  end.
  unfold valid_snapshot.
  repeat match goal with
  | T : may ?P (lookup ?k items) = true, H : lookup ?k items <> None |- _ =>
      pose proof (may_present P _ T H); clear T
  end.
  repeat (apply andb_true_intro; split); trivial.
  - destruct (lookup "last_eval_psnr" items) as [[]|];
      simpl in *; try discriminate; assumption.
  - destruct (lookup "current_export_file" items) as [[]|];
      simpl in *; try discriminate;
      try destruct (String.eqb _ ""); trivial;
      match goal with
      | H : has ?P ?o = true |- may ?P ?o = true =>
          destruct o; [exact H | discriminate]
      end.
Qed.

(** X16.  What the structure test checks is enough for the monitor to
    report a snapshot and to stop on it: on an object that has the test's
    nine expected fields, whose fields have their types where present,
    and whose two metrics are both floats or both null or absent, a pass
    that finds a new [current_iteration] prints the status line and
    nothing but the terminal notices after it, never a missing-key
    notice; and when the status is [completed] or [error] the pass leaves
    the loop, whatever the world holds next. *)
Theorem structure_checked_snapshot_is_reported (rt : runtime)
    (i : spec_float) (w : poll) (st : mstate)
    (items : list (string * json)) (c : json) :
  TestStatusFeature.first_absent TestStatusFeature.expected_fields items
  = None ->
  typed_snapshot (JDict items) = true ->
  match lookup "last_eval_psnr" items with
  | Some (JFloat _) => has is_float (lookup "last_eval_ssim" items)
  | _ => may (null_or is_float) (lookup "last_eval_ssim" items)
  end = true ->
  file w = Loaded (JDict items) ->
  lookup "current_iteration" items = Some c ->
  py_eq c (last_iteration st) = false ->
  exists line s,
    lookup "status" items = Some (JStr s) /\
    render rt (now w) (JDict items) c = Ok (line, JStr s) /\
    snd (iteration rt i w st)
    = {| last_iteration := c;
         stdout := (stdout st ++ line :: terminal_notices rt items s)%list |} /\
    (terminal s = true ->
     forall rest,
       while_true rt i (w :: rest) st
       = (Ok false,
          {| last_iteration := c;
             stdout := (stdout st
                        ++ line :: terminal_notices rt items s)%list |})).
Proof.
  intros Ha Ht Hm Hf Hc E.
  pose proof (expected_fields_valid items Ha Ht Hm) as Hv.
  destruct (try_body_valid rt i w st items Hf Hv)
    as [n [s [line [Hn [Hs [Hr Hb]]]]]].
  rewrite Hc in Hn. injection Hn as ->. rewrite E in Hb.
  exists line, s. refine (conj Hs (conj Hr (conj _ _))).
  - now apply iteration_state with (f := if terminal s then Break
                                          else Fallthrough).
  - intros Hterm rest. rewrite Hterm in Hb.
    rewrite while_true_cons. now rewrite (iteration_break _ _ _ _ _ Hb).
Qed.

(** X17.  The exit code of the test program tells whether every test
    passed: it is 0 when both tests return true and 1 otherwise, and the
    summary line counts the tests that passed out of two. *)
Theorem main_exit_code (temp_path : string)
    (r : TestStatusFeature.run_result) (d : TestStatusFeature.round_trip) :
  let ok1 := snd (TestStatusFeature.test_status_file_creation temp_path r) in
  let ok2 := snd (TestStatusFeature.test_status_file_structure d) in
  let passed := (Nat.b2n ok1 + Nat.b2n ok2)%nat in
  snd (TestStatusFeature.main temp_path r d) = (if ok1 && ok2 then 0 else 1) /\
  In ("Test Results: " ++ str_int (Z.of_nat passed) ++ "/2 tests passed")
    (fst (TestStatusFeature.main temp_path r d)).
Proof.
  unfold TestStatusFeature.main. simpl TestStatusFeature.run_tests.
  destruct (TestStatusFeature.test_status_file_creation temp_path r)
    as [p1 ok1].
  destruct (TestStatusFeature.test_status_file_structure d) as [p2 ok2].
  cbn [snd fst].
  destruct ok1, ok2; cbn -[TestStatusFeature.times str_int String.append].
  all: split; [reflexivity|].
  all: do 4 right; apply in_or_app; right; right; left; reflexivity.
Qed.

(** ** Closed instances of the further properties *)


Lemma break_only_on_terminal_status_witness :
  iteration sample_runtime one completed_poll (initial_state "status.json")
  = (Ok false,
     {| last_iteration := JInt 100;
        stdout := (header "status.json"
                   ++ [completed_line;
                       completed_notice])%list |}) /\
  exists status c line train_status notices,
    file completed_poll = Loaded status /\
    subscript status "current_iteration" = Ok c /\
    py_eq c (last_iteration (initial_state "status.json")) = false /\
    render sample_runtime (now completed_poll) status c
    = Ok (line, train_status) /\
    (train_status = JStr "completed" \/ train_status = JStr "error") /\
    JInt 100 = c /\
    (header "status.json"
     ++ [completed_line; completed_notice])%list
    = (stdout (initial_state "status.json") ++ line :: notices)%list.
Proof.
  assert (H : iteration sample_runtime one completed_poll
                (initial_state "status.json")
              = (Ok false,
                 {| last_iteration := JInt 100;
                    stdout := (header "status.json"
                               ++ [completed_line;
                                   completed_notice])%list |}))
    by (vm_compute; reflexivity).
  split; [exact H|].
  exact (break_only_on_terminal_status sample_runtime one completed_poll
           (initial_state "status.json") _ H).
Defined.

Lemma unreadable_artifact_costs_one_notice_witness :
  time_sleep one false = Ok tt /\
  monitor_training_progress sample_runtime "status.json" one
    [absent_poll; corrupted_poll]
  = (Polling,
     {| last_iteration := JInt (-1);
        stdout := (header "status.json"
                   ++ anomaly_notices [absent_poll; corrupted_poll])%list |}).
Proof.
  split; [reflexivity|].
  apply (unreadable_artifact_costs_one_notice sample_runtime "status.json"
           one [absent_poll; corrupted_poll] (initial_state "status.json")).
  - reflexivity.
  - repeat constructor; discriminate.
Defined.

Lemma unchanged_iteration_is_silent_witness :
  time_sleep one false = Ok tt /\
  while_true sample_runtime one [completed_poll; completed_poll] seen_100
  = (Ok true, seen_100).
Proof.
  split; [reflexivity|].
  apply (unchanged_iteration_is_silent sample_runtime one
           [completed_poll; completed_poll] seen_100).
  - reflexivity.
  - repeat constructor; exists (JInt 100); split; reflexivity.
Defined.

Lemma interrupt_ends_run_witness :
  time_sleep one false = Ok tt /\
  interrupt interrupted_poll = true /\
  monitor_training_progress sample_runtime "status.json" one
    ([training_poll] ++ interrupted_poll :: [completed_poll])
  = (Returned,
     {| last_iteration := JInt 100;
        stdout := (header "status.json"
                   ++ [training_line;
                       "Status file not found, waiting for training to start..."]
                   ++ [stop_notice])%list |}).
Proof.
  split; [reflexivity|]. split; [reflexivity|].
  apply (interrupt_ends_run sample_runtime "status.json" one
           [training_poll] [completed_poll] interrupted_poll
           {| last_iteration := JInt 100;
              stdout := (header "status.json"
                         ++ [training_line])%list |}
           {| last_iteration := JInt 100;
              stdout := (header "status.json"
                         ++ [training_line;
                             "Status file not found, waiting for training to start..."])%list |});
    vm_compute; reflexivity.
Defined.



Lemma cli_test_passes_iff_witness :
  contains "--save-status" "  --save-status  --status-filename <NAME>" /\
  contains "--status-filename" "  --save-status  --status-filename <NAME>" /\
  snd (TestStatusFeature.test_status_file_creation "/tmp/t"
         (TestStatusFeature.Completed 0
            "  --save-status  --status-filename <NAME>" "")) = true.
Proof.
  assert (H1 : contains "--save-status"
                 "  --save-status  --status-filename <NAME>")
    by (apply containsb_sound; reflexivity).
  assert (H2 : contains "--status-filename"
                 "  --save-status  --status-filename <NAME>")
    by (apply containsb_sound; reflexivity).
  split; [exact H1|]. split; [exact H2|].
  apply (proj2 (proj1 (cli_test_passes_iff "/tmp/t"
                         (TestStatusFeature.Completed 0
                            "  --save-status  --status-filename <NAME>" "")))).
  exists "  --save-status  --status-filename <NAME>", "". auto.
Defined.

Lemma structure_test_passes_iff_witness :
  Forall (fun k => lookup k TestStatusFeature.sample_status <> None)
    TestStatusFeature.expected_fields /\
  snd (TestStatusFeature.test_status_file_structure
         (TestStatusFeature.Dumped "{}" TestStatusFeature.sample_status))
  = true.
Proof.
  assert (H : Forall (fun k => lookup k TestStatusFeature.sample_status <> None)
                TestStatusFeature.expected_fields)
    by (repeat constructor; discriminate).
  split; [exact H|].
  apply (proj2 (proj1 (structure_test_passes_iff
                         (TestStatusFeature.Dumped "{}"
                            TestStatusFeature.sample_status)))).
  exists "{}", TestStatusFeature.sample_status. auto.
Defined.

Lemma structure_checked_snapshot_is_reported_witness :
  TestStatusFeature.first_absent TestStatusFeature.expected_fields
    TestStatusFeature.sample_status = None /\
  typed_snapshot (JDict TestStatusFeature.sample_status) = true /\
  exists line s,
    lookup "status" TestStatusFeature.sample_status = Some (JStr s) /\
    render sample_runtime "12:00:00" (JDict TestStatusFeature.sample_status)
      (JInt 100) = Ok (line, JStr s) /\
    snd (iteration sample_runtime one
           (sees (JDict TestStatusFeature.sample_status) "12:00:00")
           (initial_state "status.json"))
    = {| last_iteration := JInt 100;
         stdout := (stdout (initial_state "status.json")
                    ++ line :: terminal_notices sample_runtime
                                 TestStatusFeature.sample_status s)%list |} /\
    (terminal s = true ->
     forall rest,
       while_true sample_runtime one
         (sees (JDict TestStatusFeature.sample_status) "12:00:00" :: rest)
         (initial_state "status.json")
       = (Ok false,
          {| last_iteration := JInt 100;
             stdout := (stdout (initial_state "status.json")
                        ++ line :: terminal_notices sample_runtime
                                     TestStatusFeature.sample_status s)%list |})).
Proof.
  split; [reflexivity|]. split; [reflexivity|].
  exact (structure_checked_snapshot_is_reported sample_runtime one
           (sees (JDict TestStatusFeature.sample_status) "12:00:00")
           (initial_state "status.json")
           TestStatusFeature.sample_status (JInt 100)
           eq_refl eq_refl eq_refl eq_refl eq_refl eq_refl).
Defined.
